(** * Petcare: a shallow embedding of [app.py]

    The Flask application is modelled as functions from a request, the
    session cookie and the state of the process (the two tables and the
    module-level [db_initialized] flag) to a response and a new state.
    Python exceptions are values of an error monad, so every
    [try ... except Exception] of the source appears as an explicit handler.

    A handler that reads a JSON body takes the value [request.get_json()]
    returned as its [data] argument; query-string and form arguments are
    [option string], as [.get] returns them.

    What lives outside [app.py] is taken as a parameter: how the database
    driver binds a JSON value to a column, whether the engine enforces
    foreign keys, and [datetime.fromisoformat] (class [Runtime]); whether
    the database answers during a request, the clock and the process
    environment variables (record [Env]). *)

From Stdlib Require Import QArith Ascii String.
From stdpp Require Import gmap strings list sorting.

#[local] Set Warnings "-register-all".
#[local] Open Scope string_scope.

(** ** JSON payloads, as [request.get_json()] returns them *)

Inductive json : Type :=
  | JNull
  | JBool (b : bool)
  | JInt (z : Z)
  | JFloat (q : Q)
  | JStr (s : string)
  | JArr (l : list json)
  | JObj (m : gmap string json).

(** Python exceptions raised on the paths of the handlers. All of them are
    subclasses of [Exception]. *)
Inductive exn : Type :=
  | TypeError
  | AttributeError
  | KeyError
  | ValueError
  | OperationalError   (* the engine is unreachable, or a table is missing *)
  | IntegrityError     (* NOT NULL, UNIQUE or FOREIGN KEY violated *)
  | DataError.         (* the driver cannot bind a value to a column *)

Definition result (A : Type) : Type := exn + A.

(** Truth value of a Python object, as tested by [not x] and [if x:]. *)
Definition truthy (v : json) : bool :=
  match v with
  | JNull => false
  | JBool b => b
  | JInt z => negb (z =? 0)%Z
  | JFloat q => negb (Qeq_bool q 0)
  | JStr s => negb (String.eqb s "")
  | JArr l => match l with [] => false | _ => true end
  | JObj m => match map_to_list m with [] => false | _ => true end
  end.

(** [needle in hay] for two Python strings. *)
Fixpoint str_contains (needle hay : string) : bool :=
  String.prefix needle hay ||
  match hay with
  | EmptyString => false
  | String _ hay' => str_contains needle hay'
  end.

(** [field in data]: key membership for a dict, element membership for a
    list, substring test for a string, [TypeError] for anything else. *)
Definition py_in (field : string) (data : json) : result bool :=
  match data with
  | JObj m => inr (bool_decide (is_Some (m !! field)))
  | JArr l => inr (existsb (λ x, match x with
                                 | JStr s => String.eqb s field
                                 | _ => false
                                 end) l)
  | JStr s => inr (str_contains field s)
  | _ => inl TypeError
  end.

(** [data.get(key, default)]: only a dict has the method. *)
Definition py_get (data : json) (key : string) (dflt : json) : result json :=
  match data with
  | JObj m => inr (default dflt (m !! key))
  | _ => inl AttributeError
  end.

(** [data[key]] with a string key. *)
Definition py_item (data : json) (key : string) : result json :=
  match data with
  | JObj m => match m !! key with
              | Some v => inr v
              | None => inl KeyError
              end
  | _ => inl TypeError
  end.

(** [all(field in data for field in fields)]: stops at the first [False],
    and an exception of [in] propagates. *)
Fixpoint py_all_in (fields : list string) (data : json) : result bool :=
  match fields with
  | [] => inr true
  | f :: fields' =>
      match py_in f data with
      | inl e => inl e
      | inr false => inr false
      | inr true => py_all_in fields' data
      end
  end.

(** [x or fallback] for a nullable text column. *)
Definition or_text (x : option string) (fallback : string) : string :=
  match x with
  | Some s => if String.eqb s "" then fallback else s
  | None => fallback
  end.

(** ** The two tables

    Columns declared without a default ([phone], [profession], ...) are
    nullable and read as [option]. Columns with a default are never given
    [None] by any constructor call of [app.py], so their rows hold a value.
    A [Float] column holds a finite double, read as the rational it
    denotes; a [DateTime] is a timestamp in [Z]. *)

Module User.
Record t : Type := mk {
  id : Z;
  name : string;
  email : string;
  phone : option string;
  user_type : string;
  profession : option string;
  city : option string;
  region : option string;
  experience_years : Z;
  services_offered : option string;
  hourly_rate : Q;
  rating : Q;
  total_reviews : Z;
  bio : option string;
  is_verified : bool;
  is_active : bool;
  created_at : Z
}.
End User.

Module Booking.
Record t : Type := mk {
  id : Z;
  client_id : Z;
  professional_id : Z;
  service_type : string;
  booking_date : Z;
  status : string;
  notes : option string;
  total_cost : option Q;
  created_at : Z
}.
End Booking.

(** A [User(...)] object before it is flushed: the keyword arguments of the
    constructor. [name], [email] and [user_type] may still be [None] here;
    the NOT NULL constraint is checked by the INSERT. *)
Record UserInit : Type := {
  i_name : option string;
  i_email : option string;
  i_phone : option string;
  i_user_type : option string;
  i_profession : option string;
  i_city : option string;
  i_region : option string;
  i_experience_years : Z;
  i_services_offered : option string;
  i_hourly_rate : Q;
  i_rating : Q;
  i_total_reviews : Z;
  i_bio : option string;
  i_is_verified : bool;
  i_is_active : bool
}.

(** The [default=] of each column, used for a keyword the call omits. *)
Definition default_user_type : string := "client".
Definition default_experience_years : Z := 0.
Definition default_hourly_rate : Q := 0.
Definition default_rating : Q := 0.
Definition default_total_reviews : Z := 0.
Definition default_is_verified : bool := false.
Definition default_is_active : bool := true.
Definition default_status : string := "pending".

(** A [Booking(...)] object before it is flushed. *)
Record BookingInit : Type := {
  b_client_id : option Z;
  b_professional_id : option Z;
  b_service_type : option string;
  b_booking_date : Z;
  b_notes : option string;
  b_total_cost : option Q
}.

Record Tables : Type := {
  users : list User.t;
  bookings : list Booking.t
}.

(** The state of the process and of its database: [tables] is [None] until
    [db.create_all()] has created the schema. *)
Record World : Type := {
  tables : option Tables;
  db_initialized : bool
}.

(** What the outside decides for one request. *)
Record Env : Type := {
  db_up : bool;                      (* the engine answers *)
  utcnow : Z;                        (* datetime.utcnow() *)
  ADMIN_USERNAME : option string;    (* os.environ *)
  ADMIN_PASSWORD : option string
}.

(** The signed session cookie: only the key [admin_logged_in] is ever
    written, and only with [True]. *)
Record Session : Type := { admin_logged_in : bool }.

Definition LoggedOut : Session := {| admin_logged_in := false |}.
Definition LoggedIn : Session := {| admin_logged_in := true |}.

(** Code outside [app.py]: the driver's binding of a Python value to a
    column ([None]: the statement fails; [Some None]: SQL NULL), the
    engine's foreign-key enforcement, and the standard library's ISO-8601
    parser. *)
Class Runtime : Type := {
  bind_text : json → option (option string);
  bind_int : json → option (option Z);
  bind_float : json → option (option Q);
  fk_enforced : bool;
  fromisoformat : string → option Z
}.

(** A driver binds a [str] to itself and [None] to NULL. (An engine that
    enforces the declared length of a [String(n)] column does so only for
    strings that fit; the properties that need this law say so.) *)
Class RuntimeLaws (R : Runtime) : Prop := {
  bind_text_str : ∀ s, bind_text (JStr s) = Some (Some s);
  bind_text_null : bind_text JNull = Some None
}.

(** ** Responses *)

Record ProfessionalSummary : Type := {
  s_id : Z;
  s_name : string;
  s_profession : string;
  s_city : string;
  s_region : string;
  s_rating : Q;
  s_total_reviews : Z;
  s_hourly_rate : Q;
  s_services_offered : string;
  s_bio : string;
  s_is_verified : bool;
  s_experience_years : Z
}.

Record ProfessionalDetail : Type := {
  d_id : Z;
  d_name : string;
  d_profession : option string;
  d_city : option string;
  d_region : option string;
  d_rating : Q;
  d_total_reviews : Z;
  d_hourly_rate : Q;
  d_services_offered : option string;
  d_bio : option string;
  d_is_verified : bool;
  d_experience_years : Z;
  d_phone : option string
}.

Record Stats : Type := {
  total_users : nat;
  total_professionals : nat;
  total_clients : nat;
  verified_professionals : nat;
  total_bookings : nat;
  pending_bookings : nat
}.

Inductive Body : Type :=
  | JsonError (error : string)
  | JsonProfessionals (l : list ProfessionalSummary)
  | JsonProfessional (d : ProfessionalDetail)
  | JsonRegistered (message : string) (user_id : Z)
  | JsonBooked (message : string) (booking_id : Z)
  | JsonStats (s : Stats)
  | JsonHealth (status database version : string) (timestamp : Z)
  | Template (file : string) (error : option string)
  | Redirect (endpoint : string).

Record Response : Type := { status : Z; body : Body }.

(** [jsonify(x)] answers 200, [jsonify(x), code] answers [code]. *)
Definition jsonify (b : Body) : Response := {| status := 200; body := b |}.
Definition jsonify_code (b : Body) (code : Z) : Response :=
  {| status := code; body := b |}.
Definition render_template (file : string) (error : option string) : Response :=
  {| status := 200; body := Template file error |}.
Definition redirect (endpoint : string) : Response :=
  {| status := 302; body := Redirect endpoint |}.

(** ** The monad of a handler body: state and exceptions *)

Definition M (A : Type) : Type := World → World * result A.

#[global] Instance M_ret : MRet M := λ A a w, (w, inr a).
#[global] Instance M_bind : MBind M := λ A B k c w,
  match c w with
  | (w', inr a) => k a w'
  | (w', inl e) => (w', inl e)
  end.

Definition raise {A} (e : exn) : M A := λ w, (w, inl e).
Definition lift {A} (r : result A) : M A := λ w, (w, r).

(** [try: body except Exception as e: handler]. *)
Definition try_except {A} (body : M A) (handler : exn → World → World * A)
  : World → World * A :=
  λ w, match body w with
       | (w', inr a) => (w', a)
       | (w', inl e) => handler e w'
       end.

(** Order on ratings, decided by cross-multiplication. *)
#[global] Instance Qle_dec : RelDecision Qle :=
  λ x y, decide (Qnum x * QDen y ≤ Qnum y * QDen x)%Z.

(** ** The application *)

Section App.
Context {R : Runtime}.

(** *** Storage gateway

    A statement fails with [OperationalError] when the engine does not
    answer or the table does not exist. A session's pending rows reach
    the tables only at [commit], so [rollback] leaves the tables as the
    last commit left them. *)

Definition empty_tables : Tables := {| users := []; bookings := [] |}.

(** [db.create_all()]: creates the tables that are absent. *)
Definition create_all (env : Env) : M () := λ w,
  if db_up env then
    ({| tables := Some (default empty_tables (tables w));
        db_initialized := db_initialized w |}, inr ())
  else (w, inl OperationalError).

(** The rows a [User.query] or [Booking.query] ranges over. *)
Definition select {A} (env : Env) (table : Tables → list A) : M (list A) := λ w,
  if db_up env then
    match tables w with
    | Some t => (w, inr (table t))
    | None => (w, inl OperationalError)
    end
  else (w, inl OperationalError).

(** [db.session.add(...)] followed by [db.session.commit()]: the INSERTs
    of one transaction, applied together or not at all. *)
Definition commit {A} (env : Env) (tx : Tables → result (Tables * A)) : M A := λ w,
  if db_up env then
    match tables w with
    | Some t =>
        match tx t with
        | inr (t', a) =>
            ({| tables := Some t'; db_initialized := db_initialized w |}, inr a)
        | inl e => (w, inl e)
        end
    | None => (w, inl OperationalError)
    end
  else (w, inl OperationalError).

(** [db.session.rollback()]. *)
Definition rollback (w : World) : World := w.

(** The integer primary key given to a new row. *)
Definition next_id (ids : list Z) : Z := (1 + foldr Z.max 0 ids)%Z.

(** The row an INSERT of [i] stores: NOT NULL on [name], [email] and
    [user_type], UNIQUE on [email]. *)
Definition new_user_row (now : Z) (i : UserInit) (t : Tables) : result User.t :=
  match i_name i, i_email i, i_user_type i with
  | Some n, Some e, Some ut =>
      if bool_decide (e ∈ User.email <$> users t) then inl IntegrityError
      else inr {| User.id := next_id (User.id <$> users t);
                  User.name := n;
                  User.email := e;
                  User.phone := i_phone i;
                  User.user_type := ut;
                  User.profession := i_profession i;
                  User.city := i_city i;
                  User.region := i_region i;
                  User.experience_years := i_experience_years i;
                  User.services_offered := i_services_offered i;
                  User.hourly_rate := i_hourly_rate i;
                  User.rating := i_rating i;
                  User.total_reviews := i_total_reviews i;
                  User.bio := i_bio i;
                  User.is_verified := i_is_verified i;
                  User.is_active := i_is_active i;
                  User.created_at := now |}
  | _, _, _ => inl IntegrityError
  end.

Definition insert_user (now : Z) (i : UserInit) (t : Tables)
  : result (Tables * User.t) :=
  match new_user_row now i t with
  | inr u => inr ({| users := users t ++ [u]; bookings := bookings t |}, u)
  | inl e => inl e
  end.

Fixpoint insert_users (now : Z) (l : list UserInit) (t : Tables)
  : result (Tables * ()) :=
  match l with
  | [] => inr (t, ())
  | i :: l' =>
      match insert_user now i t with
      | inr (t', _) => insert_users now l' t'
      | inl e => inl e
      end
  end.

(** The row an INSERT of [b] stores: NOT NULL on [client_id],
    [professional_id] and [service_type]; both ids reference [users.id]
    when the engine enforces foreign keys. *)
Definition new_booking_row (now : Z) (b : BookingInit) (t : Tables)
  : result Booking.t :=
  match b_client_id b, b_professional_id b, b_service_type b with
  | Some c, Some p, Some s =>
      if fk_enforced &&
         negb (bool_decide (c ∈ User.id <$> users t) &&
               bool_decide (p ∈ User.id <$> users t))
      then inl IntegrityError
      else inr {| Booking.id := next_id (Booking.id <$> bookings t);
                  Booking.client_id := c;
                  Booking.professional_id := p;
                  Booking.service_type := s;
                  Booking.booking_date := b_booking_date b;
                  Booking.status := default_status;
                  Booking.notes := b_notes b;
                  Booking.total_cost := b_total_cost b;
                  Booking.created_at := now |}
  | _, _, _ => inl IntegrityError
  end.

Definition insert_booking (now : Z) (b : BookingInit) (t : Tables)
  : result (Tables * Booking.t) :=
  match new_booking_row now b t with
  | inr r => inr ({| users := users t; bookings := bookings t ++ [r] |}, r)
  | inl e => inl e
  end.

(** *** init_database *)

Definition seed (n e ph pr c r : string) (years : Z) (services : string)
    (rate rt : Q) (reviews : Z) (b : string) : UserInit :=
  {| i_name := Some n; i_email := Some e; i_phone := Some ph;
     i_user_type := Some "professional";
     i_profession := Some pr; i_city := Some c; i_region := Some r;
     i_experience_years := years; i_services_offered := Some services;
     i_hourly_rate := rate; i_rating := rt; i_total_reviews := reviews;
     i_bio := Some b; i_is_verified := true;
     i_is_active := default_is_active |}.

Definition professionals : list UserInit :=
  [ seed "Dr. Marco Rossi" "marco.rossi@petcare.it" "+39 333 1234567"
      "Veterinario" "Milano" "Lombardia" 8
      "Visite generali, Chirurgia, Vaccinazioni" 80.0 4.8 156
      "Veterinario specializzato in chirurgia con 8 anni di esperienza";
    seed "Laura Bianchi" "laura.bianchi@petcare.it" "+39 347 9876543"
      "Toelettatore" "Roma" "Lazio" 5
      "Toelettatura completa, Bagno, Taglio unghie" 45.0 4.9 89
      "Toelettatore certificato specializzato in razze di piccola taglia";
    seed "Giuseppe Verde" "giuseppe.verde@petcare.it" "+39 320 5551234"
      "Dog Sitter" "Napoli" "Campania" 3
      "Passeggiate, Pet sitting, Addestramento base" 25.0 4.7 67
      "Dog sitter affidabile con passione per gli animali";
    seed "Sofia Russo" "sofia.russo@petcare.it" "+39 348 7778888"
      "Addestratore Cinofilo" "Torino" "Piemonte" 6
      "Addestramento avanzato, Educazione cuccioli" 60.0 4.9 123
      "Addestratore cinofilo certificato ENCI" ].

Definition set_db_initialized : M () := λ w,
  ({| tables := tables w; db_initialized := true |}, inr ()).

(** The body of the [try] block. *)
Definition init_database_try (env : Env) : M bool :=
  create_all env ;;
  rows ← select env users;
  (if (length rows =? 0)%nat
   then commit env (insert_users (utcnow env) professionals)
   else mret ()) ;;
  set_db_initialized ;;
  mret true.

Definition init_database (env : Env) : World → World * bool := λ w,
  if db_initialized w then (w, true)
  else try_except (init_database_try env) (λ _ w', (rollback w', false)) w.

(** A call whose return value the caller drops. *)
Definition call {A} (f : World → World * A) : M () := λ w, ((f w).1, inr ()).

(** *** Public routes *)

Definition home (env : Env) : World → World * Response := λ w,
  ((init_database env w).1, render_template "index.html" None).

(** [SELECT 1] needs the engine but no table. *)
Definition health (env : Env) : World → World * Response := λ w,
  let db_status := if db_up env then "connected" else "disconnected" in
  (w, jsonify (JsonHealth "healthy" db_status "3.0.0" (utcnow env))).

Definition summary (p : User.t) : ProfessionalSummary :=
  {| s_id := User.id p;
     s_name := User.name p;
     s_profession := or_text (User.profession p) "Professionista";
     s_city := or_text (User.city p) "N/A";
     s_region := or_text (User.region p) "N/A";
     s_rating := User.rating p;
     s_total_reviews := User.total_reviews p;
     s_hourly_rate := User.hourly_rate p;
     s_services_offered := or_text (User.services_offered p) "Servizi vari";
     s_bio := or_text (User.bio p) "Professionista qualificato";
     s_is_verified := User.is_verified p;
     s_experience_years := User.experience_years p |}.

Definition detail (p : User.t) : ProfessionalDetail :=
  {| d_id := User.id p;
     d_name := User.name p;
     d_profession := User.profession p;
     d_city := User.city p;
     d_region := User.region p;
     d_rating := User.rating p;
     d_total_reviews := User.total_reviews p;
     d_hourly_rate := User.hourly_rate p;
     d_services_offered := User.services_offered p;
     d_bio := User.bio p;
     d_is_verified := User.is_verified p;
     d_experience_years := User.experience_years p;
     d_phone := User.phone p |}.

(** [if arg:] for a query-string argument: absent and empty are both
    false. *)
Definition arg_given (arg : option string) : bool :=
  match arg with
  | Some s => negb (String.eqb s "")
  | None => false
  end.

(** [filter_by(user_type='professional', is_active=True)]. *)
Definition listed (u : User.t) : Prop :=
  User.user_type u = "professional" ∧ User.is_active u = true.

#[global] Instance listed_dec u : Decision (listed u).
Proof. unfold listed. apply _. Defined.

(** [User.rating.desc()]: [a] may come before [b]. *)
Definition rating_desc (a b : User.t) : Prop :=
  (User.rating b <= User.rating a)%Q.

#[global] Instance rating_desc_dec : RelDecision rating_desc :=
  λ a b, Qle_dec (User.rating b) (User.rating a).

(** [order_by(User.rating.desc())]; rows of equal rating keep the order
    of the table. *)
Definition order_by_rating_desc (rows : list User.t) : list User.t :=
  merge_sort rating_desc rows.

Definition get_professionals (env : Env) (profession city : option string)
  : World → World * Response :=
  try_except
    (call (init_database env) ;;
     rows ← select env users;
     let query := filter listed rows in
     let query :=
       if arg_given profession
       then filter (λ u, User.profession u = profession) query else query in
     let query :=
       if arg_given city
       then filter (λ u, User.city u = city) query else query in
     let professionals := order_by_rating_desc query in
     mret (jsonify (JsonProfessionals (summary <$> professionals))))
    (λ _ w,
       (w, jsonify_code (JsonError "Errore nel recupero dei professionisti") 500)).

(** Binding a value to a column of the statement being sent. *)
Definition bound {A} (b : option A) : M A :=
  match b with
  | Some a => mret a
  | None => raise DataError
  end.

(** The [<int:prof_id>] converter passes a natural number. The driver
    binds it to the [id] of the SELECT like any other parameter: an id it
    refuses (SQLite's refuses one beyond 64 bits) raises inside the
    [try]. *)
Definition get_professional (env : Env) (prof_id : N)
  : World → World * Response :=
  try_except
    (key ← bound (bind_int (JInt (Z.of_N prof_id)));
     rows ← select env users;
     let professional :=
       head (filter (λ u, Some (User.id u) = key ∧
                          User.user_type u = "professional" ∧
                          User.is_active u = true) rows) in
     match professional with
     | None =>
         mret (jsonify_code (JsonError "Professionista non trovato") 404)
     | Some p => mret (jsonify (JsonProfessional (detail p)))
     end)
    (λ _ w,
       (w, jsonify_code (JsonError "Errore nel recupero del professionista") 500)).

(** [not data or not data.get('name') or not data.get('email')], with
    the short-circuit of [or]. *)
Definition register_invalid (data : json) : result bool :=
  if negb (truthy data) then inr true
  else match py_get data "name" JNull with
       | inl e => inl e
       | inr n =>
           if negb (truthy n) then inr true
           else match py_get data "email" JNull with
                | inl e => inl e
                | inr m => inr (negb (truthy m))
                end
       end.

Definition register (env : Env) (data : json) : World → World * Response :=
  try_except
    (call (init_database env) ;;
     invalid ← lift (register_invalid data);
     if invalid : bool
     then mret (jsonify_code (JsonError "Nome e email sono obbligatori") 400)
     else
       key ← lift (py_item data "email");
       key ← bound (bind_text key);
       rows ← select env users;
       match head (filter (λ u, Some (User.email u) = key) rows) with
       | Some _ =>
           mret (jsonify_code (JsonError "Email già registrata") 400)
       | None =>
           n ← lift (py_item data "name");
           e ← lift (py_item data "email");
           ph ← lift (py_get data "phone" (JStr ""));
           ut ← lift (py_get data "user_type" (JStr "client"));
           pr ← lift (py_get data "profession" (JStr ""));
           c ← lift (py_get data "city" (JStr ""));
           r ← lift (py_get data "region" (JStr ""));
           n ← bound (bind_text n);
           e ← bound (bind_text e);
           ph ← bound (bind_text ph);
           ut ← bound (bind_text ut);
           pr ← bound (bind_text pr);
           c ← bound (bind_text c);
           r ← bound (bind_text r);
           let new_user :=
             {| i_name := n; i_email := e; i_phone := ph;
                i_user_type := ut; i_profession := pr;
                i_city := c; i_region := r;
                i_experience_years := default_experience_years;
                i_services_offered := None;
                i_hourly_rate := default_hourly_rate;
                i_rating := default_rating;
                i_total_reviews := default_total_reviews;
                i_bio := None;
                i_is_verified := default_is_verified;
                i_is_active := default_is_active |} in
           u ← commit env (insert_user (utcnow env) new_user);
           mret (jsonify_code
                   (JsonRegistered "Registrazione completata con successo"
                      (User.id u)) 201)
       end)
    (λ _ w,
       (rollback w,
        jsonify_code (JsonError "Errore durante la registrazione") 500)).

Definition required_fields : list string :=
  ["client_id"; "professional_id"; "service_type"; "booking_date"].

(** [datetime.fromisoformat(v)]: [TypeError] unless [v] is a [str],
    [ValueError] when the string is not in ISO format. *)
Definition parse_date (v : json) : result Z :=
  match v with
  | JStr s => match fromisoformat s with
              | Some d => inr d
              | None => inl ValueError
              end
  | _ => inl TypeError
  end.

Definition create_booking (env : Env) (data : json)
  : World → World * Response :=
  try_except
    (call (init_database env) ;;
     complete ← lift (py_all_in required_fields data);
     if negb complete
     then mret (jsonify_code (JsonError "Campi obbligatori mancanti") 400)
     else
       c ← lift (py_item data "client_id");
       p ← lift (py_item data "professional_id");
       s ← lift (py_item data "service_type");
       d ← lift (py_item data "booking_date");
       d ← lift (parse_date d);
       n ← lift (py_get data "notes" (JStr ""));
       cost ← lift (py_get data "total_cost" (JFloat 0.0));
       c ← bound (bind_int c);
       p ← bound (bind_int p);
       s ← bound (bind_text s);
       n ← bound (bind_text n);
       cost ← bound (bind_float cost);
       let new_booking :=
         {| b_client_id := c; b_professional_id := p; b_service_type := s;
            b_booking_date := d; b_notes := n; b_total_cost := cost |} in
       b ← commit env (insert_booking (utcnow env) new_booking);
       mret (jsonify_code
               (JsonBooked "Prenotazione creata con successo" (Booking.id b))
               201))
    (λ _ w,
       (rollback w,
        jsonify_code
          (JsonError "Errore durante la creazione della prenotazione") 500)).

(** *** Admin routes *)

Inductive Method : Type := GET | POST.

Definition admin_login (env : Env) (method : Method)
    (username password : option string) (session : Session)
  : Session * Response :=
  match method with
  | POST =>
      let admin_user := default "admin" (ADMIN_USERNAME env) in
      let admin_pass := default "admin123" (ADMIN_PASSWORD env) in
      if bool_decide (username = Some admin_user) &&
         bool_decide (password = Some admin_pass)
      then ({| admin_logged_in := true |}, redirect "admin_dashboard")
      else (session,
            render_template "admin_login.html" (Some "Credenziali non valide"))
  | GET => (session, render_template "admin_login.html" None)
  end.

Definition admin_dashboard (env : Env) (session : Session)
  : World → World * Response := λ w,
  if negb (admin_logged_in session) then (w, redirect "admin_login")
  else ((init_database env w).1, render_template "admin_dashboard.html" None).

(** [session.clear()]. *)
Definition admin_logout (session : Session) : Session * Response :=
  (LoggedOut, redirect "admin_login").

Definition admin_stats (env : Env) (session : Session)
  : World → World * Response := λ w,
  if negb (admin_logged_in session)
  then (w, jsonify_code (JsonError "Non autorizzato") 401)
  else
    try_except
      (call (init_database env) ;;
       us ← select env users;
       bs ← select env bookings;
       let stats :=
         {| total_users := length us;
            total_professionals :=
              length (filter (λ u, User.user_type u = "professional") us);
            total_clients :=
              length (filter (λ u, User.user_type u = "client") us);
            verified_professionals :=
              length (filter (λ u, User.user_type u = "professional" ∧
                                   User.is_verified u = true) us);
            total_bookings := length bs;
            pending_bookings :=
              length (filter (λ b, Booking.status b = "pending") bs) |} in
       mret (jsonify (JsonStats stats)))
      (λ _ w',
         (w', jsonify_code
                (JsonError "Errore nel recupero delle statistiche") 500))
      w.

(** *** Error handler for unmatched routes *)

Definition not_found (path : string) : Response :=
  if String.prefix "/api/" path
  then jsonify_code (JsonError "Endpoint non trovato") 404
  else {| status := 404; body := Template "index.html" None |}.

(** *** Routing *)

Inductive Request : Type :=
  | GetHome
  | GetHealth
  | GetProfessionals (profession city : option string)
  | GetProfessional (prof_id : N)
  | PostRegister (data : json)
  | PostBookings (data : json)
  | AdminLogin (method : Method) (username password : option string)
  | AdminDashboard
  | AdminLogout
  | AdminStats
  | Unmatched (path : string).

Definition handle (env : Env) (req : Request) (st : Session * World)
  : (Session * World) * Response :=
  let '(session, w) := st in
  let keep (r : World * Response) := ((session, r.1), r.2) in
  match req with
  | GetHome => keep (home env w)
  | GetHealth => keep (health env w)
  | GetProfessionals profession city =>
      keep (get_professionals env profession city w)
  | GetProfessional prof_id => keep (get_professional env prof_id w)
  | PostRegister data => keep (register env data w)
  | PostBookings data => keep (create_booking env data w)
  | AdminLogin method username password =>
      let r := admin_login env method username password session in
      ((r.1, w), r.2)
  | AdminDashboard => keep (admin_dashboard env session w)
  | AdminLogout => let r := admin_logout session in ((r.1, w), r.2)
  | AdminStats => keep (admin_stats env session w)
  | Unmatched path => ((session, w), not_found path)
  end.

(** The state after a sequence of requests, each with its own [Env]. *)
Fixpoint serve (trace : list (Env * Request)) (st : Session * World)
  : Session * World :=
  match trace with
  | [] => st
  | (env, req) :: trace' => serve trace' (handle env req st).1
  end.

(** A process that has just started on a database without tables. *)
Definition fresh : World := {| tables := None; db_initialized := false |}.

End App.

(** ** A runtime to evaluate the model on

    A driver that binds a value only to a column of its own type, and an
    integer only within 64 bits, as SQLite's does; an engine that enforces
    foreign keys; a parser for the date-only ISO form [YYYY-MM-DD]. *)

Definition strict_text (v : json) : option (option string) :=
  match v with
  | JStr s => Some (Some s)
  | JNull => Some None
  | _ => None
  end.

Definition strict_int (v : json) : option (option Z) :=
  match v with
  | JInt z =>
      if (- 2 ^ 63 <=? z)%Z && (z <? 2 ^ 63)%Z then Some (Some z) else None
  | JNull => Some None
  | _ => None
  end.

Definition strict_float (v : json) : option (option Q) :=
  match v with
  | JFloat q => Some (Some q)
  | JInt z => Some (Some (inject_Z z))
  | JNull => Some None
  | _ => None
  end.

Definition digit (a : ascii) : option Z :=
  let n := Ascii.nat_of_ascii a in
  if (48 <=? n)%nat && (n <=? 57)%nat then Some (Z.of_nat (n - 48)) else None.

Fixpoint digits (acc : Z) (l : list ascii) : option Z :=
  match l with
  | [] => Some acc
  | a :: l' => match digit a with
               | Some d => digits (10 * acc + d) l'
               | None => None
               end
  end.

(** [YYYY-MM-DD] read as the number [YYYYMMDD]. *)
Definition iso_date (s : string) : option Z :=
  match list_ascii_of_string s with
  | [y1; y2; y3; y4; "-"%char; m1; m2; "-"%char; d1; d2] =>
      digits 0 [y1; y2; y3; y4; m1; m2; d1; d2]
  | _ => None
  end.

#[global] Instance sample_runtime : Runtime := {|
  bind_text := strict_text;
  bind_int := strict_int;
  bind_float := strict_float;
  fk_enforced := true;
  fromisoformat := iso_date
|}.

#[global] Instance sample_runtime_laws : RuntimeLaws sample_runtime.
Proof. split; reflexivity. Qed.

Definition sample_env : Env :=
  {| db_up := true; utcnow := 1700000000;
     ADMIN_USERNAME := None; ADMIN_PASSWORD := None |}.

Definition offline_env : Env :=
  {| db_up := false; utcnow := 1700000000;
     ADMIN_USERNAME := None; ADMIN_PASSWORD := None |}.

(** The world after the first successful [init_database]. *)
Definition seeded : World := (init_database sample_env fresh).1.

(** * Vocabulary of the properties *)

(** The user rows of a world; none while the schema is missing. *)
Definition users_of (w : World) : list User.t :=
  match tables w with
  | Some t => users t
  | None => []
  end.

Definition bookings_of (w : World) : list Booking.t :=
  match tables w with
  | Some t => bookings t
  | None => []
  end.

(** The rows the seed transaction stores in an empty [users] table. *)
Definition seeded_users (now : Z) : list User.t :=
  match insert_users now professionals empty_tables with
  | inr (t, _) => users t
  | inl _ => []
  end.

(** The tables a successful first [init_database] leaves. *)
Definition initialized (now : Z) (ts : option Tables) : Tables :=
  match ts with
  | Some t =>
      match users t with
      | [] => {| users := seeded_users now; bookings := bookings t |}
      | _ :: _ => t
      end
  | None => {| users := seeded_users now; bookings := [] |}
  end.

(** The flag agrees with the database: a process that has initialized has
    its tables. [init_database] sets the flag only after [create_all], and
    no route drops a table. *)
Definition schema_ready (w : World) : Prop :=
  db_initialized w = true → is_Some (tables w).

(** The rows the claim expects: every supplied filter is applied. *)
Definition matches_supplied (profession city : option string) (u : User.t)
  : Prop :=
  listed u ∧
  from_option (λ s, User.profession u = Some s) True profession ∧
  from_option (λ s, User.city u = Some s) True city.

(** The rows the route selects: a filter is applied when its argument is a
    non-empty string. *)
Definition matches_given (profession city : option string) (u : User.t)
  : Prop :=
  listed u ∧
  (arg_given profession = true → User.profession u = profession) ∧
  (arg_given city = true → User.city u = city).

#[global] Instance matches_supplied_dec p c u : Decision (matches_supplied p c u).
Proof. unfold matches_supplied. destruct p, c; simpl; apply _. Defined.

#[global] Instance matches_given_dec p c u : Decision (matches_given p c u).
Proof. unfold matches_given. apply _. Defined.

(** The list a response carries, when it is a listing. *)
Definition listing (r : Response) : list ProfessionalSummary :=
  match body r with
  | JsonProfessionals l => l
  | _ => []
  end.

#[global] Instance rating_desc_total : Total rating_desc.
Proof.
  intros a b. unfold rating_desc.
  destruct (Qlt_le_dec (User.rating a) (User.rating b)) as [Hlt|Hle].
  - right. apply Qlt_le_weak. exact Hlt.
  - left. exact Hle.
Qed.

#[global] Instance rating_desc_trans : Transitive rating_desc.
Proof.
  intros a b c Hab Hbc. unfold rating_desc in *.
  eapply Qle_trans; eassumption.
Qed.

(** [filter_by(id=prof_id, user_type='professional', is_active=True)]. *)
Definition is_professional (prof_id : Z) (u : User.t) : Prop :=
  User.id u = prof_id ∧ User.user_type u = "professional" ∧
  User.is_active u = true.

#[global] Instance is_professional_dec prof_id u :
  Decision (is_professional prof_id u).
Proof. unfold is_professional. apply _. Defined.

(** The same filter on the key as the driver bound it; a NULL key matches
    no row. *)
Definition matches_key (key : option Z) (u : User.t) : Prop :=
  Some (User.id u) = key ∧ User.user_type u = "professional" ∧
  User.is_active u = true.

#[global] Instance matches_key_dec key u : Decision (matches_key key u).
Proof. unfold matches_key. apply _. Defined.

Definition not_found_response : Response :=
  jsonify_code (JsonError "Professionista non trovato") 404.

Definition detail_error_response : Response :=
  jsonify_code (JsonError "Errore nel recupero del professionista") 500.

(** A computation keeps an invariant of the world, whether it returns or
    raises. *)
Definition preserves {A} (I : World → Prop) (c : M A) : Prop :=
  ∀ w, I w → I (c w).1.

Definition duplicate_response : Response :=
  jsonify_code (JsonError "Email già registrata") 400.

(** The row [register] stores for the fields of a payload. *)
Definition registered_row (now : Z) (t : Tables)
    (n e : string) (ph : option string) (ut : string)
    (pr c r : option string) : User.t :=
  {| User.id := next_id (User.id <$> users t);
     User.name := n; User.email := e; User.phone := ph;
     User.user_type := ut; User.profession := pr;
     User.city := c; User.region := r;
     User.experience_years := default_experience_years;
     User.services_offered := None;
     User.hourly_rate := default_hourly_rate;
     User.rating := default_rating;
     User.total_reviews := default_total_reviews;
     User.bio := None;
     User.is_verified := default_is_verified;
     User.is_active := default_is_active;
     User.created_at := now |}.

Definition registered_response (user_id : Z) : Response :=
  jsonify_code
    (JsonRegistered "Registrazione completata con successo" user_id) 201.

(** The column defaults a row of [register] carries. *)
Definition has_defaults (u : User.t) : Prop :=
  User.is_verified u = false ∧ User.rating u = 0%Q ∧
  User.total_reviews u = 0%Z ∧ User.hourly_rate u = 0%Q ∧
  User.experience_years u = 0%Z.

(** The keyword arguments [register] leaves to the column defaults. *)
Definition init_defaults (i : UserInit) : Prop :=
  i_is_verified i = false ∧ i_rating i = 0%Q ∧ i_total_reviews i = 0%Z ∧
  i_hourly_rate i = 0%Q ∧ i_experience_years i = 0%Z.

(** No two rows share an email. *)
Definition emails_unique (w : World) : Prop :=
  NoDup (User.email <$> users_of w).

(** Beyond the seed rows, every row carries the column defaults. *)
Definition registered_have_defaults (w : World) : Prop :=
  ∃ now regs,
    users_of w = (seeded_users now ++ regs)%list ∧ Forall has_defaults regs.

(** Between requests: nothing stored by a process that has not
    initialized, or the seeds followed by rows with defaults. *)
Definition seeds_then_defaults (w : World) : Prop :=
  (db_initialized w = false ∧ users_of w = []) ∨ registered_have_defaults w.

(** Within a request, after [init_database]: the first case is left only
    when the engine does not answer. *)
Definition seeds_then_defaults_in (env : Env) (w : World) : Prop :=
  (db_up env = false ∧ db_initialized w = false ∧ users_of w = []) ∨
  registered_have_defaults w.

Definition invalid_response : Response :=
  jsonify_code (JsonError "Nome e email sono obbligatori") 400.

(** The fields [or_text] replaces: NULL and the empty string. *)
Definition falsy_text (x : option string) : Prop := x = None ∨ x = Some "".

Definition missing_fields_response : Response :=
  jsonify_code (JsonError "Campi obbligatori mancanti") 400.

Definition booking_error_response : Response :=
  jsonify_code
    (JsonError "Errore durante la creazione della prenotazione") 500.

(** A field is present in a payload, as the claims mean it: the payload is
    an object that has the key. *)
Definition field_present (f : string) (data : json) : Prop :=
  ∃ m : gmap string json, data = JObj m ∧ is_Some (m !! f).

(** The membership test of the route answers [False]. *)
Definition absent (f : string) (data : json) : Prop :=
  py_in f data = inr false.

Definition unauthorized_response : Response :=
  jsonify_code (JsonError "Non autorizzato") 401.

(** The six counters over the rows of a world. *)
Definition stats_of (w : World) : Stats :=
  {| total_users := length (users_of w);
     total_professionals :=
       length (filter (λ u, User.user_type u = "professional") (users_of w));
     total_clients :=
       length (filter (λ u, User.user_type u = "client") (users_of w));
     verified_professionals :=
       length (filter (λ u, User.user_type u = "professional" ∧
                            User.is_verified u = true) (users_of w));
     total_bookings := length (bookings_of w);
     pending_bookings :=
       length (filter (λ b, Booking.status b = "pending") (bookings_of w)) |}.

Definition anna_fields : gmap string json :=
  <["name" := JStr "Anna"]>
    (<["email" := JStr "anna@example.com"]>
       (<["user_type" := JStr "professional"]> ∅)).

Definition marco_fields : gmap string json :=
  <["name" := JStr "Marco"]> (<["email" := JStr "marco.rossi@petcare.it"]> ∅).

Definition email_only_fields : gmap string json :=
  <["email" := JStr "marco.rossi@petcare.it"]> ∅.

Definition booking_fields (c p s d : json) : gmap string json :=
  <["client_id" := c]>
    (<["professional_id" := p]>
       (<["service_type" := s]> (<["booking_date" := d]> ∅))).

(** * The rest of [app.py] *)

(** ** The database URI (module level, lines 31-41) *)

(** [s[n:]]. *)
Fixpoint str_drop (n : nat) (s : string) : string :=
  match n, s with
  | O, _ => s
  | S n', String _ s' => str_drop n' s'
  | S _, EmptyString => EmptyString
  end.

(** [s.replace(old, new, 1)]: the leftmost occurrence of [old] is replaced. *)
Fixpoint str_replace_first (old new s : string) {struct s} : string :=
  if String.prefix old s then new ++ str_drop (String.length old) s
  else match s with
       | EmptyString => EmptyString
       | String c s' => String c (str_replace_first old new s')
       end.

(** The value [app.config['SQLALCHEMY_DATABASE_URI']] gets, from the
    environment variable [DATABASE_URL]. *)
Definition sqlalchemy_database_uri (DATABASE_URL : option string) : string :=
  match DATABASE_URL with
  | Some url =>
      if negb (String.eqb url "")
      then if String.prefix "postgres://" url
           then str_replace_first "postgres://" "postgresql://" url
           else url
      else "sqlite:///petcare.db"
  | None => "sqlite:///petcare.db"
  end.

(** * Vocabulary of the further properties *)

Definition register_error_response : Response :=
  jsonify_code (JsonError "Errore durante la registrazione") 500.

Definition listing_error_response : Response :=
  jsonify_code (JsonError "Errore nel recupero dei professionisti") 500.

Definition stats_error_response : Response :=
  jsonify_code (JsonError "Errore nel recupero delle statistiche") 500.

(** A step that never changes the world. *)
Definition pure {A} (c : M A) : Prop := ∀ w, (c w).1 = w.

(** A computation that leaves the world as it found it when it raises. *)
Definition atomic {A} (c : M A) : Prop :=
  ∀ w w' e, c w = (w', inl e) → w' = w.

(** The row [create_booking] stores for the fields of a payload. *)
Definition booked_row (now : Z) (t : Tables) (c p : Z) (s : string) (d : Z)
    (n : option string) (cost : option Q) : Booking.t :=
  {| Booking.id := next_id (Booking.id <$> bookings t);
     Booking.client_id := c;
     Booking.professional_id := p;
     Booking.service_type := s;
     Booking.booking_date := d;
     Booking.status := default_status;
     Booking.notes := n;
     Booking.total_cost := cost;
     Booking.created_at := now |}.

Definition booked_response (booking_id : Z) : Response :=
  jsonify_code (JsonBooked "Prenotazione creata con successo" booking_id) 201.

(** Nothing was removed or rewritten between two worlds: the rows of the
    first are the first rows of the second. *)
Definition extends (w0 w : World) : Prop :=
  users_of w0 `prefix_of` users_of w ∧
  bookings_of w0 `prefix_of` bookings_of w.

(** No two rows of a table share an id. *)
Definition ids_unique (w : World) : Prop :=
  NoDup (User.id <$> users_of w) ∧ NoDup (Booking.id <$> bookings_of w).

Definition all_pending (w : World) : Prop :=
  Forall (λ b, Booking.status b = "pending") (bookings_of w).

(** Both ids of every booking are ids of users. *)
Definition references_ok (w : World) : Prop :=
  Forall (λ b, Booking.client_id b ∈ User.id <$> users_of w ∧
               Booking.professional_id b ∈ User.id <$> users_of w)
    (bookings_of w).

(** The state of a process that has initialized: the flag is set, the
    tables exist, and [users] starts with the seed rows. *)
Definition started (w : World) : Prop :=
  db_initialized w = true ∧ is_Some (tables w) ∧
  ∃ now regs, users_of w = (seeded_users now ++ regs)%list.

(** A POST to the login route with the configured credentials, or the
    fallbacks [admin] / [admin123] where the environment sets none. *)
Definition credentials_ok (env : Env) (req : Request) : Prop :=
  req = AdminLogin POST
          (Some (default "admin" (ADMIN_USERNAME env)))
          (Some (default "admin123" (ADMIN_PASSWORD env))).

(** The routes whose handler calls [init_database()]: the dashboard and the
    statistics only behind the session check. *)
Definition initializes (req : Request) (session : Session) : bool :=
  match req with
  | GetHome | GetProfessionals _ _ | PostRegister _ | PostBookings _ => true
  | AdminDashboard | AdminStats => admin_logged_in session
  | _ => false
  end.

Definition luca_fields : gmap string json :=
  <["name" := JStr "Luca"]>
    (<["email" := JStr "luca@example.com"]>
       (<["phone" := JStr "+39 02 1234"]> ∅)).

(** * Properties *)

(** ** The initializer *)

Section Initializer.
Context {R : Runtime}.

Lemma insert_professionals now bs :
  insert_users now professionals {| users := []; bookings := bs |}
  = inr ({| users := seeded_users now; bookings := bs |}, ()).
Proof. reflexivity. Qed.

Lemma seeded_users_length now : length (seeded_users now) = 4%nat.
Proof. reflexivity. Qed.

Lemma seeded_users_email now :
  User.email <$> seeded_users now =
  ["marco.rossi@petcare.it"; "laura.bianchi@petcare.it";
   "giuseppe.verde@petcare.it"; "sofia.russo@petcare.it"].
Proof. reflexivity. Qed.

Lemma init_database_try_up env w :
  db_up env = true →
  init_database_try env w =
  ({| tables := Some (initialized (utcnow env) (tables w));
      db_initialized := true |}, inr true).
Proof.
  intros Hup. destruct w as [ts ini].
  unfold init_database_try, mbind, M_bind, create_all, select, commit,
    set_db_initialized, mret, M_ret; simpl. rewrite !Hup; simpl.
  destruct ts as [[us bs]|]; simpl.
  - destruct us as [|u us]; reflexivity.
  - reflexivity.
Qed.

Lemma init_database_try_down env w :
  db_up env = false → init_database_try env w = (w, inl OperationalError).
Proof.
  intros Hup.
  unfold init_database_try, mbind, M_bind, create_all. rewrite Hup.
  reflexivity.
Qed.

(** The three ways a call can go. *)
Lemma init_database_unfold env w :
  init_database env w =
  if db_initialized w then (w, true)
  else if db_up env
       then ({| tables := Some (initialized (utcnow env) (tables w));
                db_initialized := true |}, true)
       else (w, false).
Proof.
  unfold init_database, try_except.
  destruct (db_initialized w); [reflexivity|].
  destruct (db_up env) eqn:Hup.
  - rewrite init_database_try_up by assumption. reflexivity.
  - rewrite init_database_try_down by assumption. reflexivity.
Qed.

Lemma initialized_nonempty now t :
  users t ≠ [] → initialized now (Some t) = t.
Proof. unfold initialized. destruct (users t); [congruence|reflexivity]. Qed.

Lemma initialized_users_nonempty now ts : users (initialized now ts) ≠ [].
Proof.
  unfold initialized. destruct ts as [t|]; [|discriminate].
  destruct (users t) eqn:E; [discriminate|]. rewrite E. discriminate.
Qed.

Lemma init_database_keeps_users env w :
  users_of w ≠ [] → tables (init_database env w).1 = tables w.
Proof.
  intros Hne. rewrite init_database_unfold.
  destruct (db_initialized w); [reflexivity|].
  destruct (db_up env); [|reflexivity]. simpl.
  unfold users_of in Hne. destruct (tables w) as [t|]; [|congruence].
  rewrite initialized_nonempty by assumption. reflexivity.
Qed.

Lemma init_database_twice env w :
  init_database env (init_database env w).1 = init_database env w.
Proof.
  rewrite (init_database_unfold env w).
  destruct (db_initialized w) eqn:Hini.
  - simpl. rewrite init_database_unfold, Hini. reflexivity.
  - destruct (db_up env) eqn:Hup; simpl.
    + rewrite init_database_unfold. reflexivity.
    + rewrite init_database_unfold, Hini, Hup. reflexivity.
Qed.

(** C3. The initializer is idempotent: a second call in a row changes
    nothing and returns what the first returned. Called twice on a store
    that is empty (no table yet, or an empty [users] table) by a process
    that has not initialized yet, it leaves the four seed rows, once; called
    on a store with a user row, it inserts nothing. *)
Theorem init_database_idempotent :
  (∀ env w, init_database env (init_database env w).1 = init_database env w) ∧
  (∀ env w,
     db_up env = true → db_initialized w = false → users_of w = [] →
     let w2 := (init_database env (init_database env w).1).1 in
     users_of w2 = seeded_users (utcnow env) ∧
     length (users_of w2) = 4%nat ∧
     bookings_of w2 = bookings_of w) ∧
  (∀ env w,
     users_of w ≠ [] → tables (init_database env w).1 = tables w).
Proof.
  split; [exact init_database_twice|].
  split; [|exact init_database_keeps_users].
  intros env w Hup Hini Hempty w2. subst w2.
  rewrite init_database_twice, init_database_unfold, Hini, Hup.
  unfold users_of, bookings_of in *; simpl.
  destruct (tables w) as [t|]; simpl.
  - rewrite Hempty. simpl. auto.
  - auto.
Qed.

End Initializer.

(** ** Listing the professionals *)

Section Listing.
Context {R : Runtime}.

Lemma init_database_tables env w :
  db_up env = true → schema_ready w →
  ∃ t, tables (init_database env w).1 = Some t.
Proof.
  intros Hup Hready. rewrite init_database_unfold.
  destruct (db_initialized w) eqn:Hini.
  - destruct (Hready Hini) as [t Ht]. exists t. exact Ht.
  - rewrite Hup. eexists. reflexivity.
Qed.

Lemma get_professionals_query profession city (rows : list User.t) :
  (let query := filter listed rows in
   let query :=
     if arg_given profession
     then filter (λ u, User.profession u = profession) query else query in
   if arg_given city
   then filter (λ u, User.city u = city) query else query)
  = filter (matches_given profession city) rows.
Proof.
  cbv zeta.
  destruct (arg_given profession) eqn:Hp, (arg_given city) eqn:Hc;
    rewrite ?list_filter_filter; apply list_filter_iff; intros u;
    unfold matches_given; rewrite Hp, Hc; intuition congruence.
Qed.

Lemma get_professionals_up env profession city w :
  db_up env = true → schema_ready w →
  get_professionals env profession city w =
  ((init_database env w).1,
   jsonify (JsonProfessionals
              (summary <$> order_by_rating_desc
                 (filter (matches_given profession city)
                    (users_of (init_database env w).1))))).
Proof.
  intros Hup Hready.
  destruct (init_database_tables env w Hup Hready) as [t Ht].
  unfold get_professionals, try_except, mbind, M_bind, call, select, mret, M_ret.
  rewrite Hup, Ht. unfold users_of. rewrite Ht.
  rewrite <- get_professionals_query. reflexivity.
Qed.

(** C2, as the route behaves. While the engine answers, GET
    /api/professionals answers 200 with the summaries of exactly the rows
    that are professionals, active, and equal to every filter given as a
    non-empty string (an empty [profession=] or [city=] is ignored), each
    row once, ordered by rating, highest first. The rows are those of the
    store after the route's own [init_database]. *)
Theorem get_professionals_listing env profession city w :
  db_up env = true → schema_ready w →
  ∃ l : list User.t,
    get_professionals env profession city w =
      ((init_database env w).1, jsonify (JsonProfessionals (summary <$> l))) ∧
    l ≡ₚ filter (matches_given profession city)
           (users_of (init_database env w).1) ∧
    StronglySorted rating_desc l.
Proof.
  intros Hup Hready.
  exists (order_by_rating_desc
            (filter (matches_given profession city)
               (users_of (init_database env w).1))).
  split; [apply get_professionals_up; assumption|].
  split.
  - apply merge_sort_Permutation.
  - apply StronglySorted_merge_sort; apply _.
Qed.

End Listing.

Lemma schema_ready_fresh : schema_ready fresh.
Proof. intros H. discriminate H. Qed.

Lemma schema_ready_seeded : schema_ready seeded.
Proof. intros _. eexists. reflexivity. Qed.

Lemma get_professionals_listing_witness :
  ∃ l : list User.t,
    get_professionals sample_env (Some "Veterinario") (Some "") seeded =
      ((init_database sample_env seeded).1,
       jsonify (JsonProfessionals (summary <$> l))) ∧
    l ≡ₚ filter (matches_given (Some "Veterinario") (Some ""))
           (users_of (init_database sample_env seeded).1) ∧
    StronglySorted rating_desc l.
Proof.
  apply (get_professionals_listing sample_env (Some "Veterinario") (Some "") seeded).
  - reflexivity.
  - exact schema_ready_seeded.
Defined.

(** C2, as stated, fails: with [?profession=] (supplied, empty) no row of
    the seeded store equals the filter, and the route lists all four. *)
Lemma get_professionals_empty_filter :
  filter (matches_supplied (Some "") None) (users_of seeded) = [] ∧
  s_profession <$> listing (get_professionals sample_env (Some "") None seeded).2
  = ["Toelettatore"; "Addestratore Cinofilo"; "Veterinario"; "Dog Sitter"].
Proof. split; vm_compute; reflexivity. Qed.

(** ** Looking one professional up *)

Section Detail.
Context {R : Runtime}.

Lemma get_professional_unfold env prof_id w :
  get_professional env prof_id w =
  (w, match bind_int (JInt (Z.of_N prof_id)) with
      | None => detail_error_response
      | Some key =>
          if db_up env
          then match tables w with
               | Some t =>
                   match head (filter (matches_key key) (users t)) with
                   | None => not_found_response
                   | Some p => jsonify (JsonProfessional (detail p))
                   end
               | None => detail_error_response
               end
          else detail_error_response
      end).
Proof.
  unfold get_professional, try_except, mbind, M_bind, bound, select, mret,
    M_ret, raise.
  destruct (bind_int (JInt (Z.of_N prof_id))) as [key|]; [|reflexivity].
  destruct (db_up env); [|reflexivity].
  destruct (tables w) as [t|]; [|reflexivity].
  change (λ u, Some (User.id u) = key ∧ User.user_type u = "professional" ∧
               User.is_active u = true) with (matches_key key).
  destruct (head (filter (matches_key key) (users t))); reflexivity.
Qed.

Lemma filter_matches_key z (rows : list User.t) :
  filter (matches_key (Some z)) rows = filter (is_professional z) rows.
Proof.
  apply list_filter_iff. intros u. unfold matches_key, is_professional.
  split; intros (Hid & Hrest); (split; [congruence|exact Hrest]).
Qed.

Lemma head_filter_None {A} (P : A → Prop) `{!∀ x, Decision (P x)} (l : list A) :
  head (filter P l) = None ↔ ¬ ∃ x, x ∈ l ∧ P x.
Proof.
  rewrite head_None. split.
  - intros Hnil (x & Hin & HP).
    exact (filter_nil_not_elem_of P l x Hnil HP Hin).
  - intros Hno. destruct (filter P l) as [|x l'] eqn:E; [reflexivity|].
    exfalso. apply Hno. exists x.
    assert (Hx : x ∈ filter P l) by (rewrite E; left).
    apply list_elem_of_filter in Hx. tauto.
Qed.


End Detail.


(** C7 fails on the detail route: [get_professional] queries [users]
    without calling [init_database]. Asked first after a start on a
    database without tables, it answers 500 and leaves the process
    uninitialized, where the listing route initializes, seeds and answers;
    once another route has initialized, the same request answers 200. *)
Theorem get_professional_skips_init :
  get_professional sample_env 1 fresh = (fresh, detail_error_response) ∧
  db_initialized (get_professionals sample_env None None fresh).1 = true ∧
  status (get_professionals sample_env None None fresh).2 = 200%Z ∧
  status (get_professional sample_env 1
            (get_professionals sample_env None None fresh).1).2 = 200%Z.
Proof. repeat split; vm_compute; reflexivity. Qed.

(** ** Reasoning about handler bodies *)

Section Monad.
Context {R : Runtime}.

(** Inversion of a computation that returned. *)
Lemma bind_ok {A B} (c : M A) (k : A → M B) w w' b :
  (c ≫= k) w = (w', inr b) →
  ∃ a w1, c w = (w1, inr a) ∧ k a w1 = (w', inr b).
Proof.
  unfold mbind, M_bind. destruct (c w) as [w1 [e|a]]; [discriminate|].
  intros H. exists a, w1. split; [reflexivity|exact H].
Qed.

Lemma mret_ok {A} (a b : A) w w' :
  (mret a : M A) w = (w', inr b) → w' = w ∧ b = a.
Proof. unfold mret, M_ret. intros H. inversion H. auto. Qed.

Lemma call_ok {A} (f : World → World * A) w w' u :
  call f w = (w', inr u) → w' = (f w).1.
Proof. unfold call. intros H. inversion H. reflexivity. Qed.

Lemma lift_ok {A} (r : result A) w w' a :
  lift r w = (w', inr a) → w' = w ∧ r = inr a.
Proof. unfold lift. intros H. inversion H. auto. Qed.

Lemma bound_ok {A} (o : option A) w w' a :
  bound o w = (w', inr a) → w' = w ∧ o = Some a.
Proof.
  unfold bound. destruct o; [|discriminate].
  intros H. apply mret_ok in H. destruct H as [-> ->]. auto.
Qed.

Lemma select_ok {A} env (table : Tables → list A) w w' l :
  select env table w = (w', inr l) →
  w' = w ∧ db_up env = true ∧ ∃ t, tables w = Some t ∧ l = table t.
Proof.
  unfold select. destruct (db_up env); [|discriminate].
  destruct (tables w) as [t|]; [|discriminate].
  intros H. inversion H. subst. split; [reflexivity|]. split; [reflexivity|].
  exists t. auto.
Qed.

Lemma commit_ok {A} env (tx : Tables → result (Tables * A)) w w' a :
  commit env tx w = (w', inr a) →
  ∃ t t', tables w = Some t ∧ tx t = inr (t', a) ∧
          w' = {| tables := Some t'; db_initialized := db_initialized w |}.
Proof.
  unfold commit. destruct (db_up env); [|discriminate].
  destruct (tables w) as [t|]; [|discriminate].
  destruct (tx t) as [e|[t' a']] eqn:E; [discriminate|].
  intros H. inversion H. subst. exists t, t'. auto.
Qed.

Lemma preserves_bind {A B} I (c : M A) (k : A → M B) :
  preserves I c → (∀ a, preserves I (k a)) → preserves I (c ≫= k).
Proof.
  intros Hc Hk w Hw. unfold mbind, M_bind.
  specialize (Hc w Hw). destruct (c w) as [w1 [e|a]]; simpl in *.
  - exact Hc.
  - apply Hk. exact Hc.
Qed.

Lemma preserves_mret {A} I (a : A) : preserves I (mret a).
Proof. intros w Hw. exact Hw. Qed.

Lemma preserves_raise {A} I e : preserves I (@raise A e).
Proof. intros w Hw. exact Hw. Qed.

Lemma preserves_lift {A} I (r : result A) : preserves I (lift r).
Proof. intros w Hw. exact Hw. Qed.

Lemma preserves_bound {A} I (o : option A) : preserves I (bound o).
Proof. destruct o; [apply preserves_mret|apply preserves_raise]. Qed.

Lemma preserves_select {A} I env (table : Tables → list A) :
  preserves I (select env table).
Proof.
  intros w Hw. unfold select.
  destruct (db_up env); [|exact Hw]. destruct (tables w); exact Hw.
Qed.

Lemma preserves_call {A} I (f : World → World * A) :
  (∀ w, I w → I (f w).1) → preserves I (call f).
Proof. intros Hf w Hw. apply Hf. exact Hw. Qed.

Lemma preserves_commit {A} (I : World → Prop) env
    (tx : Tables → result (Tables * A)) :
  (∀ w t t' a,
     db_up env = true → I w → tables w = Some t → tx t = inr (t', a) →
     I {| tables := Some t'; db_initialized := db_initialized w |}) →
  preserves I (commit env tx).
Proof.
  intros Htx w Hw. unfold commit.
  destruct (db_up env) eqn:Hup; [|exact Hw].
  destruct (tables w) as [t|] eqn:Ht; [|exact Hw].
  destruct (tx t) as [e|[t' a]] eqn:E; [exact Hw|].
  simpl. eapply Htx; eauto.
Qed.

Lemma preserves_try_except {A} I (body : M A) handler w :
  preserves I body → (∀ e w', handler e w' = (rollback w', (handler e w').2)) →
  I w → I (try_except body handler w).1.
Proof.
  intros Hb Hh Hw. unfold try_except.
  specialize (Hb w Hw). destruct (body w) as [w1 [e|a]]; simpl in *.
  - rewrite Hh. exact Hb.
  - exact Hb.
Qed.

End Monad.

Create HintDb handlers.

#[global] Hint Resolve preserves_mret preserves_raise preserves_lift
  preserves_bound preserves_select : handlers.

(** Takes the successful run of a handler body apart, bind by bind. *)
Ltac monad_inv H :=
  repeat match type of H with
    | (_ ≫= _) _ = (_, inr _) =>
        let a := fresh "a" in
        let w := fresh "w" in
        let H1 := fresh "Hstep" in
        apply bind_ok in H; destruct H as (a & w & H1 & H);
        first
          [ apply call_ok in H1; subst w
          | apply lift_ok in H1; destruct H1 as [-> H1]
          | apply bound_ok in H1; destruct H1 as [-> H1]
          | apply select_ok in H1; destruct H1 as (-> & ? & ? & ? & ->)
          | apply commit_ok in H1; destruct H1 as (? & ? & ? & H1 & ->)
          | idtac ]
    end.

(** ** Registration *)

Section Register.
Context {R : Runtime} {L : RuntimeLaws R}.

Lemma truthy_obj (m : gmap string json) k v :
  m !! k = Some v → truthy (JObj m) = true.
Proof.
  intros Hk. simpl. destruct (map_to_list m) eqn:E; [|reflexivity].
  apply map_to_list_empty_iff in E. subst m.
  rewrite lookup_empty in Hk. discriminate Hk.
Qed.

Lemma register_invalid_false (m : gmap string json) vn ve :
  m !! "name" = Some vn → truthy vn = true →
  m !! "email" = Some ve → truthy ve = true →
  register_invalid (JObj m) = inr false.
Proof.
  intros Hn Hvn He Hve. unfold register_invalid.
  rewrite (truthy_obj m "name" vn Hn). simpl.
  rewrite Hn, He. simpl. rewrite Hvn, Hve. reflexivity.
Qed.

(** [filter_by(email=e).first()] finds a row exactly when [e] is the email
    of some row. *)
Lemma first_by_email (rows : list User.t) e :
  head (filter (λ u, Some (User.email u) = Some e) rows) = None ↔
  e ∉ User.email <$> rows.
Proof.
  rewrite head_filter_None. split.
  - intros Hno Hin. apply list_elem_of_fmap in Hin.
    destruct Hin as (u & -> & Hu). apply Hno. exists u. auto.
  - intros Hnot (u & Hu & Heq). apply Hnot.
    injection Heq as <-. apply list_elem_of_fmap_2. exact Hu.
Qed.

Lemma register_duplicate env (m : gmap string json) w vn e :
  db_up env = true → schema_ready w →
  m !! "name" = Some vn → truthy vn = true →
  m !! "email" = Some (JStr e) → e ≠ "" →
  e ∈ User.email <$> users_of (init_database env w).1 →
  register env (JObj m) w = ((init_database env w).1, duplicate_response).
Proof.
  intros Hup Hready Hn Hvn He Hne Hin.
  destruct (init_database_tables env w Hup Hready) as [t Ht].
  assert (Hve : truthy (JStr e) = true).
  { simpl. destruct (String.eqb_spec e ""); [congruence|reflexivity]. }
  unfold register, try_except, mbind, M_bind, call, lift.
  rewrite (register_invalid_false m vn (JStr e) Hn Hvn He Hve).
  unfold py_item. rewrite He.
  rewrite bind_text_str. unfold bound, mret, M_ret, select.
  rewrite Hup, Ht.
  unfold users_of in Hin. rewrite Ht in Hin.
  destruct (head (filter (λ u, Some (User.email u) = Some e) (users t))) eqn:E.
  - reflexivity.
  - apply first_by_email in E. contradiction.
Qed.

Lemma register_success env (m : gmap string json) w t n e ph ut pr c r :
  db_up env = true →
  tables (init_database env w).1 = Some t →
  m !! "name" = Some (JStr n) → n ≠ "" →
  m !! "email" = Some (JStr e) → e ≠ "" →
  e ∉ User.email <$> users t →
  bind_text (default (JStr "") (m !! "phone")) = Some ph →
  bind_text (default (JStr "client") (m !! "user_type")) = Some (Some ut) →
  bind_text (default (JStr "") (m !! "profession")) = Some pr →
  bind_text (default (JStr "") (m !! "city")) = Some c →
  bind_text (default (JStr "") (m !! "region")) = Some r →
  let u := registered_row (utcnow env) t n e ph ut pr c r in
  register env (JObj m) w =
  ({| tables := Some {| users := users t ++ [u]; bookings := bookings t |};
      db_initialized := db_initialized (init_database env w).1 |},
   registered_response (User.id u)).
Proof.
  intros Hup Ht Hn Hnn He Hne Hnew Hph Hut Hpr Hc Hr u.
  assert (Hvn : truthy (JStr n) = true).
  { simpl. destruct (String.eqb_spec n ""); [congruence|reflexivity]. }
  assert (Hve : truthy (JStr e) = true).
  { simpl. destruct (String.eqb_spec e ""); [congruence|reflexivity]. }
  apply first_by_email in Hnew.
  unfold register, try_except, mbind, M_bind, call, lift.
  rewrite (register_invalid_false m (JStr n) (JStr e) Hn Hvn He Hve).
  unfold py_item, py_get. rewrite He, Hn.
  rewrite !bind_text_str. unfold bound, mret, M_ret, select.
  rewrite Hup, Ht, Hnew, Hph, Hut, Hpr, Hc, Hr.
  unfold commit. rewrite Hup, Ht.
  unfold insert_user, new_user_row. cbn [i_name i_email i_user_type].
  apply first_by_email in Hnew.
  rewrite (bool_decide_eq_false_2 _ Hnew).
  reflexivity.
Qed.

Lemma new_user_row_inr now i t u :
  new_user_row now i t = inr u →
  (User.email u ∉ User.email <$> users t) ∧
  User.id u = next_id (User.id <$> users t) ∧
  User.experience_years u = i_experience_years i ∧
  User.hourly_rate u = i_hourly_rate i ∧
  User.rating u = i_rating i ∧
  User.total_reviews u = i_total_reviews i ∧
  User.is_verified u = i_is_verified i.
Proof.
  unfold new_user_row.
  destruct (i_name i), (i_email i) as [e|], (i_user_type i);
    try discriminate.
  destruct (bool_decide (e ∈ User.email <$> users t)) eqn:E; [discriminate|].
  apply bool_decide_eq_false_1 in E.
  intros H. injection H as <-. simpl. auto 10.
Qed.

Lemma insert_user_inr now i t t' u :
  insert_user now i t = inr (t', u) →
  new_user_row now i t = inr u ∧
  t' = {| users := users t ++ [u]; bookings := bookings t |}.
Proof.
  unfold insert_user. destruct (new_user_row now i t); [discriminate|].
  intros H. injection H as <- <-. auto.
Qed.

(** A 201 of [register] comes with exactly one new row, appended to the
    table [init_database] left. *)
Lemma register_created env data w w' resp :
  register env data w = (w', resp) → status resp = 201%Z →
  ∃ t u,
    tables (init_database env w).1 = Some t ∧
    tables w' = Some {| users := users t ++ [u]; bookings := bookings t |} ∧
    db_initialized w' = db_initialized (init_database env w).1 ∧
    resp = registered_response (User.id u) ∧
    (User.email u ∉ User.email <$> users t) ∧
    has_defaults u.
Proof.
  unfold register, try_except.
  match goal with |- context [?b w] => destruct (b w) as [w2 [e|a]] eqn:Hbody end.
  { intros H. injection H as <- <-. discriminate. }
  intros H Hst. injection H as -> ->.
  monad_inv Hbody.
  destruct a0.
  { apply mret_ok in Hbody. destruct Hbody as [_ ->]. discriminate Hst. }
  monad_inv Hbody.
  match type of Hbody with
  | context [head ?l] => destruct (head l)
  end.
  { apply mret_ok in Hbody. destruct Hbody as [_ ->]. discriminate Hst. }
  monad_inv Hbody.
  apply mret_ok in Hbody. destruct Hbody as [-> ->].
  match goal with
  | Htx : insert_user _ _ ?t = inr (_, ?u) |- _ =>
      apply insert_user_inr in Htx; destruct Htx as [Hrow ->];
      apply new_user_row_inr in Hrow; simpl in Hrow;
      destruct Hrow as (Hnew & Hid & Hy & Hr & Hrt & Hrv & Hv);
      exists t, u
  end.
  unfold has_defaults. auto 12.
Qed.

End Register.

(** ** Invariants of the routes *)

Ltac preserve :=
  repeat first
    [ apply preserves_mret | apply preserves_raise | apply preserves_lift
    | apply preserves_bound | apply preserves_select
    | apply preserves_bind; [|intros ?]
    | match goal with
      | |- preserves _ (if ?b then _ else _) => destruct b
      | |- preserves _ (match ?x with _ => _ end) => destruct x
      end ].

Section Invariant.
Context {R : Runtime}.

(** [I] holds between requests; [J env] is what [init_database] makes of
    it for the rest of a request served under [env]. *)
Variable I : World → Prop.
Variable J : Env → World → Prop.
Hypothesis init_J : ∀ env w, I w → J env (init_database env w).1.
Hypothesis J_I : ∀ env w, J env w → I w.
Hypothesis user_J : ∀ env w t t' u i,
  db_up env = true → J env w → tables w = Some t → init_defaults i →
  insert_user (utcnow env) i t = inr (t', u) →
  J env {| tables := Some t'; db_initialized := db_initialized w |}.
Hypothesis booking_J : ∀ env w t bs,
  J env w → tables w = Some t →
  J env {| tables := Some {| users := users t; bookings := bs |};
           db_initialized := db_initialized w |}.

Lemma after_init_preserves {A} env (rest : M A) handler w :
  (∀ e w', (handler e w').1 = w') →
  preserves (J env) rest →
  I w → I (try_except (call (init_database env) ;; rest) handler w).1.
Proof.
  intros Hh Hrest Hw. apply (J_I env).
  unfold try_except, mbind, M_bind, call.
  specialize (Hrest _ (init_J env w Hw)).
  destruct (rest (init_database env w).1) as [w1 [e|a]]; simpl in *.
  - rewrite Hh. exact Hrest.
  - exact Hrest.
Qed.

Lemma register_preserves env data w : I w → I (register env data w).1.
Proof.
  unfold register. apply after_init_preserves; [reflexivity|].
  preserve.
  apply preserves_commit. intros w0 t t' u Hup Hw0 Ht Htx.
  eapply user_J; eauto. repeat split.
Qed.

Lemma create_booking_preserves env data w :
  I w → I (create_booking env data w).1.
Proof.
  unfold create_booking. apply after_init_preserves; [reflexivity|].
  preserve.
  apply preserves_commit. intros w0 t t' b Hup Hw0 Ht Htx.
  unfold insert_booking in Htx.
  destruct (new_booking_row _ _ t); [discriminate|].
  injection Htx as <- <-. apply booking_J; assumption.
Qed.

Lemma handle_preserves env req session w :
  I w → I (handle env req (session, w)).1.2.
Proof.
  intros Hw. destruct req; simpl.
  - apply (J_I env), init_J, Hw.
  - exact Hw.
  - unfold get_professionals.
    apply after_init_preserves; [reflexivity| |exact Hw]. preserve.
  - rewrite get_professional_unfold. exact Hw.
  - apply register_preserves, Hw.
  - apply create_booking_preserves, Hw.
  - exact Hw.
  - unfold admin_dashboard. destruct (negb (admin_logged_in session)).
    + exact Hw.
    + apply (J_I env), init_J, Hw.
  - exact Hw.
  - unfold admin_stats. destruct (negb (admin_logged_in session)).
    + exact Hw.
    + apply after_init_preserves; [reflexivity| |exact Hw]. preserve.
  - exact Hw.
Qed.

Lemma serve_invariant (K : World → Prop) :
  (∀ env req session w, K w → K (handle env req (session, w)).1.2) →
  ∀ trace st, K st.2 → K (serve trace st).2.
Proof.
  intros Hstep trace.
  induction trace as [|[env req] trace IH]; intros [session w] Hw.
  - exact Hw.
  - simpl serve. apply IH. apply Hstep. exact Hw.
Qed.

End Invariant.

(** ** The three invariants *)

Section Invariants.
Context {R : Runtime}.

Lemma seeded_users_NoDup now : NoDup (User.email <$> seeded_users now).
Proof.
  rewrite seeded_users_email. apply (bool_decide_unpack _). reflexivity.
Qed.

Lemma users_of_init_database env w :
  users_of (init_database env w).1 =
  if db_initialized w then users_of w
  else if db_up env
       then match users_of w with
            | [] => seeded_users (utcnow env)
            | _ :: _ => users_of w
            end
       else users_of w.
Proof.
  rewrite init_database_unfold.
  destruct (db_initialized w); [reflexivity|].
  destruct (db_up env); [|reflexivity].
  unfold users_of, initialized; simpl.
  destruct (tables w) as [t|]; [|reflexivity].
  destruct (users t) eqn:E; [reflexivity|]. rewrite E. reflexivity.
Qed.

Lemma init_database_flag env w :
  db_initialized (init_database env w).1 = db_initialized w || db_up env.
Proof.
  rewrite init_database_unfold.
  destruct (db_initialized w) eqn:E; [exact E|].
  destruct (db_up env); [reflexivity|exact E].
Qed.

Lemma emails_unique_init env w :
  emails_unique w → emails_unique (init_database env w).1.
Proof.
  unfold emails_unique. rewrite users_of_init_database. intros Hw.
  destruct (db_initialized w); [exact Hw|].
  destruct (db_up env); [|exact Hw].
  destruct (users_of w); [apply seeded_users_NoDup|exact Hw].
Qed.

Lemma emails_unique_insert env w t t' u i :
  db_up env = true → emails_unique w → tables w = Some t → init_defaults i →
  insert_user (utcnow env) i t = inr (t', u) →
  emails_unique {| tables := Some t'; db_initialized := db_initialized w |}.
Proof.
  unfold emails_unique, users_of. intros _ Hw Ht _ Htx. rewrite Ht in Hw.
  apply insert_user_inr in Htx. destruct Htx as [Hrow ->].
  apply new_user_row_inr in Hrow. destruct Hrow as [Hnew _].
  simpl. rewrite fmap_app. apply NoDup_app. split; [exact Hw|].
  split; [|apply NoDup_singleton].
  intros e He Hin. apply list_elem_of_singleton in Hin. subst e.
  contradiction.
Qed.

Lemma emails_unique_handle env req session w :
  emails_unique w → emails_unique (handle env req (session, w)).1.2.
Proof.
  apply (handle_preserves emails_unique (λ _, emails_unique)).
  - exact emails_unique_init.
  - auto.
  - exact emails_unique_insert.
  - unfold emails_unique, users_of. intros ? ? ? ? Hw Ht.
    rewrite Ht in Hw. exact Hw.
Qed.

Lemma emails_unique_serve trace st :
  emails_unique st.2 → emails_unique (serve trace st).2.
Proof. apply serve_invariant. exact emails_unique_handle. Qed.

Lemma schema_ready_handle env req session w :
  schema_ready w → schema_ready (handle env req (session, w)).1.2.
Proof.
  apply (handle_preserves schema_ready (λ _, schema_ready)).
  - intros env' w' Hw. rewrite init_database_unfold.
    destruct (db_initialized w') eqn:E; [exact Hw|].
    destruct (db_up env').
    + intros _. eexists. reflexivity.
    + exact Hw.
  - auto.
  - intros; intros _; eexists; reflexivity.
  - intros; intros _; eexists; reflexivity.
Qed.

Lemma seeds_then_defaults_init env w :
  seeds_then_defaults w → seeds_then_defaults_in env (init_database env w).1.
Proof.
  unfold seeds_then_defaults, seeds_then_defaults_in, registered_have_defaults.
  rewrite users_of_init_database, init_database_flag.
  intros [[Hini Hnil]|(now & regs & Hus & Hregs)].
  - rewrite Hini, Hnil. cbn [orb]. destruct (db_up env).
    + right.
      exists (utcnow env), []. split; [|constructor].
      symmetry. apply app_nil_r.
    + left. auto.
  - right. exists now, regs. split; [|exact Hregs].
    destruct (db_initialized w); [exact Hus|].
    destruct (db_up env); [|exact Hus].
    rewrite Hus. reflexivity.
Qed.

Lemma seeds_then_defaults_insert env w t t' u i :
  db_up env = true → seeds_then_defaults_in env w → tables w = Some t →
  init_defaults i → insert_user (utcnow env) i t = inr (t', u) →
  seeds_then_defaults_in env
    {| tables := Some t'; db_initialized := db_initialized w |}.
Proof.
  unfold seeds_then_defaults_in, registered_have_defaults, users_of.
  intros Hup [[Hdown _]|(now & regs & Hus & Hregs)] Ht Hi Htx;
    [congruence|].
  rewrite Ht in Hus. right.
  apply insert_user_inr in Htx. destruct Htx as [Hrow ->].
  apply new_user_row_inr in Hrow.
  destruct Hrow as (_ & _ & Hy & Hr & Hrt & Hrv & Hv).
  destruct Hi as (Hiv & Hirt & Hirv & Hir & Hiy).
  exists now, (regs ++ [u])%list. cbn [tables users]. rewrite Hus.
  split; [symmetry; apply app_assoc|].
  apply Forall_app. split; [exact Hregs|]. apply Forall_singleton.
  unfold has_defaults. rewrite Hy, Hr, Hrt, Hrv, Hv. auto.
Qed.

Lemma seeds_then_defaults_handle env req session w :
  seeds_then_defaults w → seeds_then_defaults (handle env req (session, w)).1.2.
Proof.
  apply (handle_preserves seeds_then_defaults seeds_then_defaults_in).
  - exact seeds_then_defaults_init.
  - unfold seeds_then_defaults, seeds_then_defaults_in. intros ? ? [H|H].
    + left. tauto.
    + right. exact H.
  - exact seeds_then_defaults_insert.
  - unfold seeds_then_defaults_in, registered_have_defaults, users_of.
    intros ? ? ? ? [H|H] Ht; rewrite Ht in H; simpl; [left|right]; exact H.
Qed.

Lemma seeds_then_defaults_serve trace st :
  seeds_then_defaults st.2 → seeds_then_defaults (serve trace st).2.
Proof. apply serve_invariant. exact seeds_then_defaults_handle. Qed.

End Invariants.

(** ** Registration: the claims *)

Section RegisterClaims.
Context {R : Runtime} {L : RuntimeLaws R}.

(** C1, as the route behaves. While the engine answers, a payload with a
    truthy name and a non-empty email that some row already has is answered
    400 "Email già registrata", and the tables stay as they were. Hence no
    sequence of requests, registrations included, makes two rows share an
    email. *)
Theorem register_duplicate_email :
  (∀ env (m : gmap string json) w vn e,
     db_up env = true → schema_ready w →
     m !! "name" = Some vn → truthy vn = true →
     m !! "email" = Some (JStr e) → e ≠ "" →
     e ∈ User.email <$> users_of w →
     (register env (JObj m) w).2 = duplicate_response ∧
     tables (register env (JObj m) w).1 = tables w) ∧
  (∀ trace st, emails_unique st.2 → emails_unique (serve trace st).2).
Proof.
  split; [|exact emails_unique_serve].
  intros env m w vn e Hup Hready Hn Hvn He Hne Hin.
  assert (Hkeep : tables (init_database env w).1 = tables w).
  { apply init_database_keeps_users. intros Hnil. rewrite Hnil in Hin.
    apply elem_of_nil in Hin. exact Hin. }
  rewrite (register_duplicate env m w vn e); auto.
  unfold users_of. rewrite Hkeep. exact Hin.
Qed.

(** C9. A 201 of [register] means one row was appended to the table, with
    the id the response carries and with [is_verified] false, [rating] 0,
    [total_reviews] 0, [hourly_rate] 0 and [experience_years] 0. No route
    updates a row: whatever requests a fresh process has served, the table
    is empty or holds the seeds followed by rows that carry these
    defaults. *)
Theorem register_column_defaults :
  (∀ env data w w' resp,
     register env data w = (w', resp) → status resp = 201%Z →
     ∃ u, users_of w' = (users_of (init_database env w).1 ++ [u])%list ∧
          resp = registered_response (User.id u) ∧
          has_defaults u) ∧
  (∀ trace session,
     let w := (serve trace (session, fresh)).2 in
     users_of w = [] ∨ registered_have_defaults w).
Proof.
  split.
  - intros env data w w' resp Hreg Hst.
    destruct (register_created env data w w' resp Hreg Hst)
      as (t & u & Ht & Ht' & _ & Hresp & _ & Hu).
    exists u. unfold users_of. rewrite Ht, Ht'. auto.
  - intros trace session w.
    assert (H : seeds_then_defaults w).
    { apply seeds_then_defaults_serve. left. split; reflexivity. }
    destruct H as [[_ H]|H]; [left|right]; exact H.
Qed.

Lemma or_text_falsy x fallback : falsy_text x → or_text x fallback = fallback.
Proof. intros [->| ->]; reflexivity. Qed.

Lemma elem_of_order_by_rating_desc u rows :
  u ∈ order_by_rating_desc rows ↔ u ∈ rows.
Proof. unfold order_by_rating_desc. rewrite merge_sort_Permutation. tauto. Qed.

(** C10. The summary replaces a field that is NULL or the empty string.
    So a payload with a name, a new email and [user_type] "professional",
    without [profession], [city] and [region], is answered 201, and the
    next listing without filters has an entry with the new id whose
    profession is "Professionista", city and region "N/A", services
    "Servizi vari" and bio "Professionista qualificato". *)
Theorem listing_fallback_after_register :
  (∀ u,
     (falsy_text (User.profession u) → s_profession (summary u) = "Professionista") ∧
     (falsy_text (User.city u) → s_city (summary u) = "N/A") ∧
     (falsy_text (User.region u) → s_region (summary u) = "N/A") ∧
     (falsy_text (User.services_offered u) →
        s_services_offered (summary u) = "Servizi vari") ∧
     (falsy_text (User.bio u) → s_bio (summary u) = "Professionista qualificato")) ∧
  (∀ env env' (m : gmap string json) w n e ph,
     db_up env = true → db_up env' = true → schema_ready w →
     m !! "name" = Some (JStr n) → n ≠ "" →
     m !! "email" = Some (JStr e) → e ≠ "" →
     e ∉ User.email <$> users_of (init_database env w).1 →
     m !! "user_type" = Some (JStr "professional") →
     m !! "profession" = None → m !! "city" = None → m !! "region" = None →
     bind_text (default (JStr "") (m !! "phone")) = Some ph →
     ∃ user_id s,
       (register env (JObj m) w).2 = registered_response user_id ∧
       s ∈ listing
             (get_professionals env' None None (register env (JObj m) w).1).2 ∧
       s_id s = user_id ∧
       s_profession s = "Professionista" ∧
       s_city s = "N/A" ∧ s_region s = "N/A" ∧
       s_services_offered s = "Servizi vari" ∧
       s_bio s = "Professionista qualificato").
Proof.
  split.
  - intros u. unfold summary; simpl.
    repeat split; apply or_text_falsy.
  - intros env env' m w n e ph Hup Hup' Hready Hn Hnn He Hne Hnew
      Hut Hpr Hc Hr Hph.
    destruct (init_database_tables env w Hup Hready) as [t Ht].
    unfold users_of in Hnew. rewrite Ht in Hnew.
    pose (u := registered_row (utcnow env) t n e ph "professional"
                 (Some "") (Some "") (Some "")).
    assert (Hreg : register env (JObj m) w =
      ({| tables := Some {| users := users t ++ [u];
                            bookings := bookings t |};
          db_initialized := db_initialized (init_database env w).1 |},
       registered_response (User.id u))).
    { apply register_success; auto.
      - rewrite Hut. apply bind_text_str.
      - rewrite Hpr. apply bind_text_str.
      - rewrite Hc. apply bind_text_str.
      - rewrite Hr. apply bind_text_str. }
    rewrite Hreg. cbn [fst snd].
    set (w' := {| tables := _; db_initialized := _ |}).
    assert (Hready' : schema_ready w') by (intros _; eexists; reflexivity).
    assert (Hkeep : tables (init_database env' w').1 = tables w').
    { apply init_database_keeps_users. unfold users_of, w'; simpl.
      intros Hnil. apply app_eq_nil in Hnil. destruct Hnil as [_ Hnil].
      discriminate Hnil. }
    exists (User.id u), (summary u).
    split; [reflexivity|]. split; [|repeat split].
    rewrite (get_professionals_up env' None None w' Hup' Hready').
    unfold listing; simpl. apply list_elem_of_fmap_2.
    apply elem_of_order_by_rating_desc, list_elem_of_filter.
    split.
    + unfold matches_given, listed. simpl.
      repeat split; intros Hgiven; discriminate Hgiven.
    + unfold users_of. rewrite Hkeep. unfold w'; simpl.
      apply elem_of_app. right. left.
Qed.

End RegisterClaims.

(** ** Bookings *)

Section BookingClaims.
Context {R : Runtime}.

Lemma absent_obj f (m : gmap string json) :
  absent f (JObj m) ↔ m !! f = None.
Proof.
  unfold absent, py_in. split.
  - intros H. injection H as H. apply bool_decide_eq_false_1 in H.
    destruct (m !! f); [|reflexivity]. exfalso. apply H. eexists. reflexivity.
  - intros ->. reflexivity.
Qed.

(** [in] raises on a payload or on none of the fields. *)
Lemma py_in_defined f g data b :
  py_in f data = inr b → ∃ b', py_in g data = inr b'.
Proof. destruct data; try discriminate; intros _; eexists; reflexivity. Qed.

Lemma py_all_in_false fields data f :
  f ∈ fields → absent f data → py_all_in fields data = inr false.
Proof.
  unfold absent. intros Hin Hf. induction fields as [|g fields IH].
  - apply elem_of_nil in Hin. contradiction.
  - simpl. apply elem_of_cons in Hin. destruct Hin as [<-|Hin].
    + rewrite Hf. reflexivity.
    + destruct (py_in_defined f g data false Hf) as [b Hg]. rewrite Hg.
      destruct b; [apply IH; exact Hin|reflexivity].
Qed.

Lemma py_all_in_true fields (m : gmap string json) :
  (∀ f, f ∈ fields → is_Some (m !! f)) →
  py_all_in fields (JObj m) = inr true.
Proof.
  induction fields as [|g fields IH]; intros Hall; [reflexivity|].
  simpl. rewrite bool_decide_eq_true_2 by (apply Hall; left).
  apply IH. intros f Hf. apply Hall. right. exact Hf.
Qed.

Lemma create_booking_unfold env data w :
  create_booking env data w =
  match py_all_in required_fields data with
  | inl _ => ((init_database env w).1, booking_error_response)
  | inr false => ((init_database env w).1, missing_fields_response)
  | inr true =>
      try_except
        (c ← lift (py_item data "client_id");
         p ← lift (py_item data "professional_id");
         s ← lift (py_item data "service_type");
         d ← lift (py_item data "booking_date");
         d ← lift (parse_date d);
         n ← lift (py_get data "notes" (JStr ""));
         cost ← lift (py_get data "total_cost" (JFloat 0.0));
         c ← bound (bind_int c);
         p ← bound (bind_int p);
         s ← bound (bind_text s);
         n ← bound (bind_text n);
         cost ← bound (bind_float cost);
         let new_booking :=
           {| b_client_id := c; b_professional_id := p; b_service_type := s;
              b_booking_date := d; b_notes := n; b_total_cost := cost |} in
         b ← commit env (insert_booking (utcnow env) new_booking);
         mret (jsonify_code
                 (JsonBooked "Prenotazione creata con successo" (Booking.id b))
                 201))
        (λ _ w', (rollback w', booking_error_response))
        (init_database env w).1
  end.
Proof.
  unfold create_booking, try_except at 1. unfold mbind at 1 2, M_bind at 1 2.
  unfold call, lift at 1.
  destruct (py_all_in required_fields data) as [e|[|]]; reflexivity.
Qed.

(** The presence check where it can run. For a payload on which [in] is
    defined (an object, an array, a string), a required field the test does
    not find is
    answered 400 "Campi obbligatori mancanti"; for an object that is a
    missing key. For an object with the four keys whose [booking_date] is
    not an ISO-8601 string, the answer is the generic 500. Either way no
    booking is stored: the world is the one [init_database] left. *)
Theorem create_booking_validation :
  (∀ env data w f,
     f ∈ required_fields → absent f data →
     create_booking env data w =
       ((init_database env w).1, missing_fields_response)) ∧
  (∀ env (m : gmap string json) w f,
     f ∈ required_fields → m !! f = None →
     create_booking env (JObj m) w =
       ((init_database env w).1, missing_fields_response)) ∧
  (∀ env (m : gmap string json) w d e,
     (∀ f, f ∈ required_fields → is_Some (m !! f)) →
     m !! "booking_date" = Some d → parse_date d = inl e →
     create_booking env (JObj m) w =
       ((init_database env w).1, booking_error_response)).
Proof.
  assert (Hmissing : ∀ env data w f,
     f ∈ required_fields → absent f data →
     create_booking env data w =
       ((init_database env w).1, missing_fields_response)).
  { intros env data w f Hin Hf. rewrite create_booking_unfold.
    rewrite (py_all_in_false required_fields data f Hin Hf). reflexivity. }
  split; [exact Hmissing|]. split.
  - intros env m w f Hin Hf. apply (Hmissing env (JObj m) w f Hin).
    apply absent_obj. exact Hf.
  - intros env m w d e Hall Hd Hparse. rewrite create_booking_unfold.
    rewrite (py_all_in_true required_fields m Hall).
    destruct (Hall "client_id") as [c Hc]; [set_solver|].
    destruct (Hall "professional_id") as [p Hp]; [set_solver|].
    destruct (Hall "service_type") as [s Hs]; [set_solver|].
    unfold try_except, mbind, M_bind, lift, py_item.
    rewrite Hc, Hp, Hs, Hd, Hparse. reflexivity.
Qed.

(** Past the presence check the route answers 201 or 500. *)
Lemma create_booking_complete env data w :
  py_all_in required_fields data = inr true →
  status (create_booking env data w).2 = 201%Z ∨
  (create_booking env data w).2 = booking_error_response.
Proof.
  intros Hall. rewrite create_booking_unfold, Hall. unfold try_except.
  match goal with
  | |- context [match ?b ?w with _ => _ end] =>
      destruct (b w) as [w2 [e|a]] eqn:Hbody
  end.
  - right. reflexivity.
  - left. monad_inv Hbody.
    apply mret_ok in Hbody. destruct Hbody as [_ ->]. reflexivity.
Qed.

(** C8. A null payload is answered 500: [in] raises on [None]. A key bound
    to null passes the membership test, and an object with the four keys,
    whatever they are bound to, is never answered with the 400 of the
    presence check. *)
Theorem create_booking_null_payload :
  (∀ env w,
     create_booking env JNull w =
       ((init_database env w).1, booking_error_response)) ∧
  (∀ (m : gmap string json) f,
     m !! f = Some JNull → py_in f (JObj m) = inr true) ∧
  (∀ env (m : gmap string json) w,
     (∀ f, f ∈ required_fields → is_Some (m !! f)) →
     py_all_in required_fields (JObj m) = inr true ∧
     (create_booking env (JObj m) w).2 ≠ missing_fields_response ∧
     status (create_booking env (JObj m) w).2 ≠ 400%Z).
Proof.
  split; [|split].
  - intros env w. rewrite create_booking_unfold. reflexivity.
  - intros m f Hf. unfold py_in. rewrite Hf. reflexivity.
  - intros env m w Hall.
    pose proof (py_all_in_true required_fields m Hall) as Htrue.
    split; [exact Htrue|].
    destruct (create_booking_complete env (JObj m) w Htrue) as [H|H].
    + split; [intros Heq; rewrite Heq in H|rewrite H]; discriminate.
    + rewrite H. split; discriminate.
Qed.

End BookingClaims.

(** ** Admin statistics *)

Section AdminClaims.
Context {R : Runtime}.

(** C5. Without the session flag the route answers 401 and touches
    nothing. With it, while the engine answers, the route answers 200 with
    the six counters of the store as its own [init_database] left it: all
    users, users of type "professional", users of type "client",
    professionals with [is_verified], all bookings, bookings with status
    "pending". The flag is set by a POST of the configured credentials to
    the login route and cleared by the logout route. *)
Theorem admin_stats_counters :
  (∀ env session w,
     admin_logged_in session = false →
     admin_stats env session w = (w, unauthorized_response)) ∧
  (∀ env session w,
     admin_logged_in session = true → db_up env = true → schema_ready w →
     admin_stats env session w =
       ((init_database env w).1,
        jsonify (JsonStats (stats_of (init_database env w).1)))) ∧
  (∀ env session,
     (admin_login env POST
        (Some (default "admin" (ADMIN_USERNAME env)))
        (Some (default "admin123" (ADMIN_PASSWORD env))) session).1 = LoggedIn ∧
     (admin_logout session).1 = LoggedOut).
Proof.
  split; [|split].
  - intros env session w Hout. unfold admin_stats. rewrite Hout. reflexivity.
  - intros env session w Hin Hup Hready.
    destruct (init_database_tables env w Hup Hready) as [t Ht].
    unfold admin_stats. rewrite Hin. cbn [negb].
    unfold try_except, mbind, M_bind, call, select, mret, M_ret.
    rewrite Hup, Ht. unfold stats_of, users_of, bookings_of. rewrite Ht.
    reflexivity.
  - intros env session. split; [|reflexivity].
    unfold admin_login. rewrite !bool_decide_eq_true_2 by reflexivity.
    reflexivity.
Qed.

End AdminClaims.

(** ** The claims on concrete requests *)

Lemma init_database_idempotent_witness :
  users_of (init_database sample_env (init_database sample_env fresh).1).1
    = seeded_users 1700000000 ∧
  tables (init_database sample_env seeded).1 = tables seeded.
Proof.
  destruct init_database_idempotent as (_ & Hempty & Hkeep).
  split.
  - apply (Hempty sample_env fresh); reflexivity.
  - apply (Hkeep sample_env seeded). vm_compute. discriminate.
Defined.

Lemma register_duplicate_email_witness :
  ((register sample_env (JObj marco_fields) seeded).2 = duplicate_response ∧
   tables (register sample_env (JObj marco_fields) seeded).1 = tables seeded) ∧
  emails_unique
    (serve [(sample_env, PostRegister (JObj anna_fields));
            (sample_env, PostRegister (JObj anna_fields))]
       (LoggedOut, fresh)).2.
Proof.
  destruct register_duplicate_email
    as [Hdup Hserve].
  split.
  - apply (Hdup sample_env marco_fields seeded (JStr "Marco")
             "marco.rossi@petcare.it").
    + reflexivity.
    + exact schema_ready_seeded.
    + vm_compute. reflexivity.
    + reflexivity.
    + vm_compute. reflexivity.
    + discriminate.
    + apply (bool_decide_unpack _). vm_compute. reflexivity.
  - apply Hserve. apply NoDup_nil_2.
Defined.

(** C1, as stated, fails: a payload that carries a registered email and no
    name is answered 400 with the message of the required-field check. *)
Lemma register_duplicate_without_name :
  "marco.rossi@petcare.it" ∈ User.email <$> users_of seeded ∧
  (register sample_env (JObj email_only_fields) seeded).2 = invalid_response ∧
  (register sample_env (JObj email_only_fields) seeded).2 ≠ duplicate_response.
Proof.
  split; [apply (bool_decide_unpack _); vm_compute; reflexivity|].
  split; [vm_compute; reflexivity|].
  vm_compute. discriminate.
Qed.

Lemma register_column_defaults_witness :
  ∃ u,
    users_of (register sample_env (JObj anna_fields) fresh).1 =
      (users_of (init_database sample_env fresh).1 ++ [u])%list ∧
    (register sample_env (JObj anna_fields) fresh).2 =
      registered_response (User.id u) ∧
    has_defaults u.
Proof.
  destruct register_column_defaults as [Hcreated _].
  apply (Hcreated sample_env (JObj anna_fields) fresh
           (register sample_env (JObj anna_fields) fresh).1
           (register sample_env (JObj anna_fields) fresh).2).
  - destruct (register sample_env (JObj anna_fields) fresh). reflexivity.
  - vm_compute. reflexivity.
Defined.

Lemma listing_fallback_after_register_witness :
  ∃ user_id s,
    (register sample_env (JObj anna_fields) fresh).2 =
      registered_response user_id ∧
    s ∈ listing
          (get_professionals sample_env None None
             (register sample_env (JObj anna_fields) fresh).1).2 ∧
    s_id s = user_id ∧
    s_profession s = "Professionista" ∧
    s_city s = "N/A" ∧ s_region s = "N/A" ∧
    s_services_offered s = "Servizi vari" ∧
    s_bio s = "Professionista qualificato".
Proof.
  destruct listing_fallback_after_register
    as [_ Hscenario].
  apply (Hscenario sample_env sample_env anna_fields fresh
           "Anna" "anna@example.com" (Some "")).
  - reflexivity.
  - reflexivity.
  - exact schema_ready_fresh.
  - vm_compute. reflexivity.
  - discriminate.
  - vm_compute. reflexivity.
  - discriminate.
  - apply (bool_decide_unpack _). vm_compute. reflexivity.
  - vm_compute. reflexivity.
  - vm_compute. reflexivity.
  - vm_compute. reflexivity.
  - vm_compute. reflexivity.
  - vm_compute. reflexivity.
Defined.

Lemma create_booking_validation_witness :
  create_booking sample_env
    (JObj (<["client_id" := JInt 1]> ∅)) seeded =
    ((init_database sample_env seeded).1, missing_fields_response) ∧
  create_booking sample_env
    (JObj (booking_fields (JInt 1) (JInt 2) (JStr "Visita") (JStr "domani")))
    seeded =
    ((init_database sample_env seeded).1, booking_error_response).
Proof.
  destruct create_booking_validation as (_ & Hmiss & Hdate).
  split.
  - apply (Hmiss sample_env (<["client_id" := JInt 1]> ∅) seeded
             "professional_id").
    + apply (bool_decide_unpack _). vm_compute. reflexivity.
    + vm_compute. reflexivity.
  - apply (Hdate sample_env
             (booking_fields (JInt 1) (JInt 2) (JStr "Visita") (JStr "domani"))
             seeded (JStr "domani") ValueError).
    + intros f Hf. unfold required_fields in Hf.
      repeat (apply elem_of_cons in Hf; destruct Hf as [->|Hf];
              [eexists; vm_compute; reflexivity|]).
      apply elem_of_nil in Hf. contradiction.
    + vm_compute. reflexivity.
    + vm_compute. reflexivity.
Defined.

(** In a null payload no field is present, and the answer is 500. *)
Lemma create_booking_null_not_400 :
  (∀ f, f ∈ required_fields → ¬ field_present f JNull) ∧
  (create_booking sample_env JNull seeded).2 = booking_error_response ∧
  status (create_booking sample_env JNull seeded).2 = 500%Z.
Proof.
  split.
  - intros f _ (m & Hm & _). discriminate Hm.
  - split; vm_compute; reflexivity.
Qed.

Lemma create_booking_null_payload_witness :
  py_all_in required_fields
    (JObj (booking_fields JNull JNull JNull JNull)) = inr true ∧
  (create_booking sample_env
     (JObj (booking_fields JNull JNull JNull JNull)) seeded).2
    ≠ missing_fields_response ∧
  status (create_booking sample_env
            (JObj (booking_fields JNull JNull JNull JNull)) seeded).2 ≠ 400%Z.
Proof.
  destruct create_booking_null_payload as (_ & _ & Hkeys).
  apply (Hkeys sample_env (booking_fields JNull JNull JNull JNull) seeded).
  intros f Hf. unfold required_fields in Hf.
  repeat (apply elem_of_cons in Hf; destruct Hf as [->|Hf];
          [eexists; vm_compute; reflexivity|]).
  apply elem_of_nil in Hf. contradiction.
Defined.

Lemma admin_stats_counters_witness :
  admin_stats sample_env LoggedOut seeded = (seeded, unauthorized_response) ∧
  admin_stats sample_env LoggedIn fresh =
    ((init_database sample_env fresh).1,
     jsonify (JsonStats (stats_of (init_database sample_env fresh).1))).
Proof.
  destruct admin_stats_counters as (Hout & Hin & _).
  split.
  - apply (Hout sample_env LoggedOut seeded). reflexivity.
  - apply (Hin sample_env LoggedIn fresh).
    + reflexivity.
    + reflexivity.
    + exact schema_ready_fresh.
Defined.

(** * Further properties *)

(** ** The database URI *)

Lemma prefix_split p s :
  String.prefix p s = true → s = p ++ str_drop (String.length p) s.
Proof.
  revert s. induction p as [|a p IH]; intros s Hp; [reflexivity|].
  destruct s as [|b s]; [discriminate Hp|]. simpl in Hp.
  destruct (Ascii.ascii_dec a b) as [->|]; [|discriminate Hp].
  change (String b s = String b (p ++ str_drop (String.length p) s)).
  f_equal. apply IH. exact Hp.
Qed.

Lemma prefix_app p rest : String.prefix p (p ++ rest) = true.
Proof.
  induction p as [|a p IH]; [destruct rest; reflexivity|].
  change (String.prefix (String a p) (String a (p ++ rest)) = true).
  simpl. destruct (Ascii.ascii_dec a a); [exact IH|congruence].
Qed.

Lemma str_drop_app p rest : str_drop (String.length p) (p ++ rest) = rest.
Proof. induction p as [|a p IH]; [reflexivity|exact IH]. Qed.

Lemma str_replace_first_unfold old new s :
  str_replace_first old new s =
  if String.prefix old s then new ++ str_drop (String.length old) s
  else match s with
       | EmptyString => EmptyString
       | String c s' => String c (str_replace_first old new s')
       end.
Proof. destruct s; reflexivity. Qed.

(** Replacing a prefix keeps what follows it. *)
Lemma str_replace_first_prefix old new rest :
  str_replace_first old new (old ++ rest) = new ++ rest.
Proof.
  rewrite str_replace_first_unfold, prefix_app, str_drop_app. reflexivity.
Qed.

(** X1. A [DATABASE_URL] that starts with [postgres://] gets the scheme
    [postgresql://] and keeps the rest as it is, later occurrences of
    [postgres://] included; any other non-empty URL is kept; an unset or
    empty variable falls back to the local SQLite file. The result never
    starts with [postgres://], and configuring from a result changes
    nothing. *)
Theorem sqlalchemy_database_uri_scheme :
  (∀ rest,
     sqlalchemy_database_uri (Some ("postgres://" ++ rest))
     = "postgresql://" ++ rest) ∧
  (∀ url, url ≠ "" → String.prefix "postgres://" url = false →
     sqlalchemy_database_uri (Some url) = url) ∧
  sqlalchemy_database_uri None = "sqlite:///petcare.db" ∧
  sqlalchemy_database_uri (Some "") = "sqlite:///petcare.db" ∧
  (∀ o, String.prefix "postgres://" (sqlalchemy_database_uri o) = false) ∧
  (∀ o, sqlalchemy_database_uri (Some (sqlalchemy_database_uri o))
        = sqlalchemy_database_uri o).
Proof.
  assert (Hrest : ∀ rest,
     sqlalchemy_database_uri (Some ("postgres://" ++ rest))
     = "postgresql://" ++ rest).
  { intros rest. unfold sqlalchemy_database_uri.
    rewrite prefix_app, str_replace_first_prefix. reflexivity. }
  assert (Hkeep : ∀ url, url ≠ "" → String.prefix "postgres://" url = false →
     sqlalchemy_database_uri (Some url) = url).
  { intros url Hne Hp. unfold sqlalchemy_database_uri. rewrite Hp.
    destruct (String.eqb_spec url ""); [contradiction|reflexivity]. }
  assert (Hnever : ∀ o,
     String.prefix "postgres://" (sqlalchemy_database_uri o) = false).
  { intros [url|]; [|reflexivity].
    destruct (String.eqb_spec url "") as [->|Hne]; [reflexivity|].
    destruct (String.prefix "postgres://" url) eqn:Hp.
    - rewrite (prefix_split _ _ Hp), Hrest. reflexivity.
    - rewrite Hkeep by assumption. exact Hp. }
  repeat split; try assumption; try reflexivity.
  intros o. apply Hkeep; [|apply Hnever].
  destruct o as [url|]; [|discriminate].
  destruct (String.eqb_spec url "") as [->|Hne]; [discriminate|].
  destruct (String.prefix "postgres://" url) eqn:Hp.
  - rewrite (prefix_split _ _ Hp), Hrest. discriminate.
  - rewrite Hkeep by assumption. exact Hne.
Qed.

Lemma sqlalchemy_database_uri_scheme_witness :
  sqlalchemy_database_uri (Some "mysql://db/petcare") = "mysql://db/petcare".
Proof.
  destruct sqlalchemy_database_uri_scheme as (_ & Hkeep & _).
  apply Hkeep; [discriminate|reflexivity].
Defined.

(** ** The initializer: failure and retry *)

(** X2. While the engine does not answer, [init_database] returns [False]
    and leaves the process uninitialized and the database as it was, so
    the next call tries again: once the engine answers, that call returns
    [True] with the tables created and seeded. After that the flag
    short-cuts every later call, which returns [True] without a statement,
    whether the engine answers or not. *)
Theorem init_database_retry :
  (∀ env w,
     db_up env = false → db_initialized w = false →
     init_database env w = (w, false)) ∧
  (∀ env env' w,
     db_up env = false → db_up env' = true → db_initialized w = false →
     let r := init_database env' (init_database env w).1 in
     r.2 = true ∧ db_initialized r.1 = true ∧
     is_Some (tables r.1) ∧ users_of r.1 ≠ []) ∧
  (∀ env w, db_initialized w = true → init_database env w = (w, true)).
Proof.
  split; [|split].
  - intros env w Hdown Hini. rewrite init_database_unfold, Hini, Hdown.
    reflexivity.
  - intros env env' w Hdown Hup Hini.
    rewrite (init_database_unfold env w), Hini, Hdown. cbn [fst].
    rewrite init_database_unfold, Hini, Hup. cbn [fst snd].
    split; [reflexivity|]. split; [reflexivity|].
    split; [eexists; reflexivity|].
    unfold users_of. cbn [tables]. apply initialized_users_nonempty.
  - intros env w Hini. rewrite init_database_unfold, Hini. reflexivity.
Qed.

Lemma init_database_retry_witness :
  init_database offline_env fresh = (fresh, false) ∧
  (init_database sample_env (init_database offline_env fresh).1).2 = true ∧
  init_database offline_env seeded = (seeded, true).
Proof.
  destruct init_database_retry as (Hdown & Hretry & Hfast).
  split; [apply Hdown; reflexivity|].
  split; [|apply Hfast; reflexivity].
  apply (Hretry offline_env sample_env fresh); reflexivity.
Defined.

(** ** Registration: what is rejected *)

Section RegisterRejects.
Context {R : Runtime}.

Lemma register_unfold env data w :
  register env data w =
  match register_invalid data with
  | inl _ => ((init_database env w).1, register_error_response)
  | inr true => ((init_database env w).1, invalid_response)
  | inr false =>
      try_except
        (key ← lift (py_item data "email");
         key ← bound (bind_text key);
         rows ← select env users;
         match head (filter (λ u, Some (User.email u) = key) rows) with
         | Some _ => mret duplicate_response
         | None =>
             n ← lift (py_item data "name");
             e ← lift (py_item data "email");
             ph ← lift (py_get data "phone" (JStr ""));
             ut ← lift (py_get data "user_type" (JStr "client"));
             pr ← lift (py_get data "profession" (JStr ""));
             c ← lift (py_get data "city" (JStr ""));
             r ← lift (py_get data "region" (JStr ""));
             n ← bound (bind_text n);
             e ← bound (bind_text e);
             ph ← bound (bind_text ph);
             ut ← bound (bind_text ut);
             pr ← bound (bind_text pr);
             c ← bound (bind_text c);
             r ← bound (bind_text r);
             let new_user :=
               {| i_name := n; i_email := e; i_phone := ph;
                  i_user_type := ut; i_profession := pr;
                  i_city := c; i_region := r;
                  i_experience_years := default_experience_years;
                  i_services_offered := None;
                  i_hourly_rate := default_hourly_rate;
                  i_rating := default_rating;
                  i_total_reviews := default_total_reviews;
                  i_bio := None;
                  i_is_verified := default_is_verified;
                  i_is_active := default_is_active |} in
             u ← commit env (insert_user (utcnow env) new_user);
             mret (registered_response (User.id u))
         end)
        (λ _ w', (rollback w', register_error_response))
        (init_database env w).1
  end.
Proof.
  unfold register, try_except at 1. unfold mbind at 1 2, M_bind at 1 2.
  unfold call, lift at 1.
  destruct (register_invalid data) as [e|[|]]; reflexivity.
Qed.

(** X3. [register] answers 400 "Nome e email sono obbligatori" to a falsy
    payload (no body, [null], [{}], [[]], [0], [""] or [false]) and to an
    object whose [name] or [email] is missing or falsy. A truthy payload
    that is not an object (an array, a string, a number, [true]) is
    answered 500: it has no [get]. In each case no row is stored. *)
Theorem register_rejects :
  (∀ env data w,
     truthy data = false →
     register env data w = ((init_database env w).1, invalid_response)) ∧
  (∀ env (m : gmap string json) w,
     truthy (default JNull (m !! "name")) = false ∨
     truthy (default JNull (m !! "email")) = false →
     register env (JObj m) w = ((init_database env w).1, invalid_response)) ∧
  (∀ env data w,
     truthy data = true → (∀ m, data ≠ JObj m) →
     register env data w =
       ((init_database env w).1, register_error_response)).
Proof.
  split; [|split].
  - intros env data w Hf. rewrite register_unfold.
    unfold register_invalid. rewrite Hf. reflexivity.
  - intros env m w Hf. rewrite register_unfold.
    unfold register_invalid, py_get.
    destruct (truthy (JObj m)); [|reflexivity]. cbn [negb].
    destruct (truthy (default JNull (m !! "name"))); [|reflexivity].
    cbn [negb]. destruct Hf as [Hf|Hf]; [discriminate Hf|].
    rewrite Hf. reflexivity.
  - intros env data w Ht Hobj. rewrite register_unfold.
    unfold register_invalid. rewrite Ht. cbn [negb].
    destruct data; try reflexivity. exfalso. eapply Hobj. reflexivity.
Qed.

(** C4 holds of what the route should do and fails on the code where the
    payload is no container: the presence check [field in data] has no
    guard for a missing body, so on [null] it raises [TypeError] and the
    request, which lacks all four fields, is answered with the generic 500
    where the claim and the documented validation path say 400. The sibling
    [register] guards the same case with [not data] and answers 400. *)
Theorem create_booking_null_is_500 :
  ∀ env w,
    py_all_in required_fields JNull = inl TypeError ∧
    create_booking env JNull w =
      ((init_database env w).1, booking_error_response) ∧
    status (create_booking env JNull w).2 = 500%Z ∧
    register env JNull w = ((init_database env w).1, invalid_response) ∧
    status (register env JNull w).2 = 400%Z.
Proof.
  intros env w. rewrite create_booking_unfold, register_unfold.
  cbn [py_all_in required_fields py_in register_invalid truthy negb].
  repeat split.
Qed.

End RegisterRejects.

Lemma register_rejects_witness :
  register sample_env JNull seeded =
    ((init_database sample_env seeded).1, invalid_response) ∧
  register sample_env
    (JObj (<["name" := JStr ""]> (<["email" := JStr "a@b.it"]> ∅))) seeded =
    ((init_database sample_env seeded).1, invalid_response) ∧
  register sample_env (JArr [JStr "Anna"]) seeded =
    ((init_database sample_env seeded).1, register_error_response).
Proof.
  destruct register_rejects as (Hfalsy & Hfield & Hshape).
  split; [apply Hfalsy; reflexivity|].
  split.
  - apply Hfield. left. vm_compute. reflexivity.
  - apply Hshape; [reflexivity|discriminate].
Defined.

(** ** A request stores one row or nothing *)

Section Atomic.
Context {R : Runtime}.

Lemma pure_lift {A} (r : result A) : pure (lift r).
Proof. intros w. reflexivity. Qed.

Lemma pure_bound {A} (o : option A) : pure (bound o).
Proof. intros w. destruct o; reflexivity. Qed.

Lemma pure_select {A} env (table : Tables → list A) : pure (select env table).
Proof.
  intros w. unfold select. destruct (db_up env); [|reflexivity].
  destruct (tables w); reflexivity.
Qed.

Lemma atomic_mret {A} (a : A) : atomic (mret a).
Proof. intros w w' e H. discriminate H. Qed.

Lemma atomic_bind_pure {A B} (c : M A) (k : A → M B) :
  pure c → (∀ a, atomic (k a)) → atomic (c ≫= k).
Proof.
  intros Hc Hk w w' e. unfold mbind, M_bind.
  specialize (Hc w). destruct (c w) as [w1 [e1|a]]; simpl in Hc; subst w1.
  - intros H. injection H as <- _. reflexivity.
  - apply Hk.
Qed.

Lemma atomic_commit_mret {A B} env (tx : Tables → result (Tables * A))
    (f : A → B) :
  atomic (commit env tx ≫= λ a, mret (f a)).
Proof.
  intros w w' e. unfold mbind, M_bind, commit.
  destruct (db_up env); [|intros H; injection H as <- _; reflexivity].
  destruct (tables w) as [t|]; [|intros H; injection H as <- _; reflexivity].
  destruct (tx t) as [e1|[t' a]].
  - intros H. injection H as <- _. reflexivity.
  - intros H. discriminate H.
Qed.

End Atomic.

Ltac atomically :=
  repeat first
    [ apply atomic_mret
    | apply atomic_commit_mret
    | apply atomic_bind_pure;
        [ first [apply pure_lift | apply pure_bound | apply pure_select]
        | intros ? ]
    | match goal with
      | |- atomic (if ?b then _ else _) => destruct b
      | |- atomic (match ?x with _ => _ end) => destruct x
      end ].

Section Outcomes.
Context {R : Runtime}.

Lemma register_atomic env data w :
  status (register env data w).2 ≠ 201%Z →
  (status (register env data w).2 = 400%Z ∨
   status (register env data w).2 = 500%Z) ∧
  (register env data w).1 = (init_database env w).1.
Proof.
  rewrite register_unfold.
  destruct (register_invalid data) as [e|[|]]; [cbn; auto|cbn; auto|].
  unfold try_except.
  match goal with
  | |- context [?b ?w1] =>
      match type of b with M Response =>
        assert (Hat : atomic b) by atomically;
        destruct (b w1) as [w2 [e|a]] eqn:Hbody
      end
  end.
  - intros _. cbn [fst snd]. split; [right; reflexivity|].
    exact (Hat _ _ _ Hbody).
  - cbn [fst snd]. intros Hst. monad_inv Hbody.
    match type of Hbody with
    | context [head ?l] => destruct (head l)
    end.
    + apply mret_ok in Hbody. destruct Hbody as [-> ->].
      split; [left; reflexivity|reflexivity].
    + monad_inv Hbody. apply mret_ok in Hbody.
      destruct Hbody as [_ ->]. contradiction Hst. reflexivity.
Qed.

(** X4. [register] has three outcomes. 201: exactly one row was appended
    to [users], with the id the response carries, and nothing else
    changed. 400 or 500: nothing was stored, the state is the one
    [init_database] left. There is no other status. *)
Theorem register_outcomes env data w :
  let w1 := (init_database env w).1 in
  let w' := (register env data w).1 in
  let resp := (register env data w).2 in
  (∃ u, resp = registered_response (User.id u) ∧
        users_of w' = (users_of w1 ++ [u])%list ∧
        bookings_of w' = bookings_of w1 ∧
        db_initialized w' = db_initialized w1) ∨
  ((status resp = 400%Z ∨ status resp = 500%Z) ∧ w' = w1).
Proof.
  intros w1 w' resp.
  destruct (decide (status resp = 201%Z)) as [Hst|Hst].
  - left. subst w' resp.
    destruct (register env data w) as [w' resp] eqn:Hreg.
    cbn [fst snd] in *.
    destruct (register_created env data w w' resp Hreg Hst)
      as (t & u & Ht & Ht' & Hflag & Hresp & _ & _).
    exists u. subst w1. unfold users_of, bookings_of. rewrite Ht, Ht'. auto.
  - right. apply register_atomic. exact Hst.
Qed.

End Outcomes.

(** ** Bookings: what is stored *)

Section BookingStored.
Context {R : Runtime}.

Lemma new_booking_row_inr now i t b :
  new_booking_row now i t = inr b →
  Booking.id b = next_id (Booking.id <$> bookings t) ∧
  Booking.status b = "pending" ∧
  b_client_id i = Some (Booking.client_id b) ∧
  b_professional_id i = Some (Booking.professional_id b) ∧
  (fk_enforced = true →
   Booking.client_id b ∈ User.id <$> users t ∧
   Booking.professional_id b ∈ User.id <$> users t).
Proof.
  unfold new_booking_row.
  destruct (b_client_id i) as [c|], (b_professional_id i) as [p|],
    (b_service_type i) as [s|]; try discriminate.
  destruct fk_enforced eqn:Hfk; cbn [andb].
  - destruct (bool_decide (c ∈ User.id <$> users t)) eqn:Hc;
      [|discriminate].
    destruct (bool_decide (p ∈ User.id <$> users t)) eqn:Hp;
      [|discriminate].
    apply bool_decide_eq_true_1 in Hc, Hp.
    intros H. injection H as <-. simpl. auto 10.
  - intros H. injection H as <-. simpl.
    repeat (split; [reflexivity|]). intros Hf. discriminate Hf.
Qed.

Lemma insert_booking_inr now i t t' b :
  insert_booking now i t = inr (t', b) →
  new_booking_row now i t = inr b ∧
  t' = {| users := users t; bookings := bookings t ++ [b] |}.
Proof.
  unfold insert_booking. destruct (new_booking_row now i t); [discriminate|].
  intros H. injection H as <- <-. auto.
Qed.

(** A 201 of [create_booking] comes with exactly one new row, appended to
    the table [init_database] left. *)
Lemma create_booking_created env data w w' resp :
  create_booking env data w = (w', resp) → status resp = 201%Z →
  ∃ t b,
    tables (init_database env w).1 = Some t ∧
    tables w' =
      Some {| users := users t; bookings := bookings t ++ [b] |} ∧
    db_initialized w' = db_initialized (init_database env w).1 ∧
    resp = booked_response (Booking.id b) ∧
    Booking.status b = "pending".
Proof.
  rewrite create_booking_unfold.
  destruct (py_all_in required_fields data) as [e|[|]];
    [intros H; injection H as <- <-; discriminate|
    |intros H; injection H as <- <-; discriminate].
  unfold try_except.
  match goal with
  | |- context [?b ?w1] =>
      match type of b with M Response =>
        destruct (b w1) as [w2 [e|a]] eqn:Hbody
      end
  end.
  { intros H. injection H as <- <-. discriminate. }
  intros H Hst. injection H as -> ->. monad_inv Hbody.
  apply mret_ok in Hbody. destruct Hbody as [-> ->].
  match goal with
  | Htx : insert_booking _ _ ?t = inr (_, ?b) |- _ =>
      apply insert_booking_inr in Htx; destruct Htx as [Hrow ->];
      apply new_booking_row_inr in Hrow;
      destruct Hrow as (_ & Hpending & _);
      exists t, b
  end.
  auto 10.
Qed.

Lemma create_booking_atomic env data w :
  status (create_booking env data w).2 ≠ 201%Z →
  (status (create_booking env data w).2 = 400%Z ∨
   status (create_booking env data w).2 = 500%Z) ∧
  (create_booking env data w).1 = (init_database env w).1.
Proof.
  rewrite create_booking_unfold.
  destruct (py_all_in required_fields data) as [e|[|]];
    [cbn; auto| |cbn; auto].
  unfold try_except.
  match goal with
  | |- context [?b ?w1] =>
      match type of b with M Response =>
        assert (Hat : atomic b) by atomically;
        destruct (b w1) as [w2 [e|a]] eqn:Hbody
      end
  end.
  - intros _. cbn [fst snd]. split; [right; reflexivity|].
    exact (Hat _ _ _ Hbody).
  - cbn [fst snd]. intros Hst. monad_inv Hbody.
    apply mret_ok in Hbody. destruct Hbody as [_ ->].
    contradiction Hst. reflexivity.
Qed.

(** X5. [create_booking] has three outcomes. 201: exactly one row was
    appended to [bookings], with the id the response carries and status
    "pending", and [users] is untouched. 400 or 500: nothing was stored,
    the state is the one [init_database] left. There is no other
    status. *)
Theorem create_booking_outcomes env data w :
  let w1 := (init_database env w).1 in
  let w' := (create_booking env data w).1 in
  let resp := (create_booking env data w).2 in
  (∃ b, resp = booked_response (Booking.id b) ∧
        Booking.status b = "pending" ∧
        bookings_of w' = (bookings_of w1 ++ [b])%list ∧
        users_of w' = users_of w1 ∧
        db_initialized w' = db_initialized w1) ∨
  ((status resp = 400%Z ∨ status resp = 500%Z) ∧ w' = w1).
Proof.
  intros w1 w' resp.
  destruct (decide (status resp = 201%Z)) as [Hst|Hst].
  - left. subst w' resp.
    destruct (create_booking env data w) as [w' resp] eqn:Hbook.
    cbn [fst snd] in *.
    destruct (create_booking_created env data w w' resp Hbook Hst)
      as (t & b & Ht & Ht' & Hflag & Hresp & Hpending).
    exists b. subst w1. unfold users_of, bookings_of. rewrite Ht, Ht'. auto.
  - right. apply create_booking_atomic. exact Hst.
Qed.

Lemma create_booking_success env (m : gmap string json) w t
    cj pj sj ds c p s d n cost :
  db_up env = true → tables (init_database env w).1 = Some t →
  m !! "client_id" = Some cj → bind_int cj = Some (Some c) →
  m !! "professional_id" = Some pj → bind_int pj = Some (Some p) →
  m !! "service_type" = Some sj → bind_text sj = Some (Some s) →
  m !! "booking_date" = Some (JStr ds) → fromisoformat ds = Some d →
  bind_text (default (JStr "") (m !! "notes")) = Some n →
  bind_float (default (JFloat 0.0) (m !! "total_cost")) = Some cost →
  (fk_enforced = true →
   c ∈ User.id <$> users t ∧ p ∈ User.id <$> users t) →
  let b := booked_row (utcnow env) t c p s d n cost in
  create_booking env (JObj m) w =
  ({| tables := Some {| users := users t; bookings := bookings t ++ [b] |};
      db_initialized := db_initialized (init_database env w).1 |},
   booked_response (Booking.id b)).
Proof.
  intros Hup Ht Hc Hbc Hp Hbp Hs Hbs Hd Hiso Hn Hcost Hfk b.
  rewrite create_booking_unfold.
  rewrite py_all_in_true.
  2:{ intros f Hf. unfold required_fields in Hf.
      repeat (apply elem_of_cons in Hf; destruct Hf as [->|Hf];
              [eexists; eassumption|]).
      apply elem_of_nil in Hf. contradiction. }
  unfold try_except, mbind, M_bind, lift, py_item, py_get, parse_date.
  rewrite Hc, Hp, Hs, Hd, Hiso.
  unfold bound, mret, M_ret.
  rewrite Hbc, Hbp, Hbs, Hn, Hcost.
  unfold commit. rewrite Hup, Ht.
  unfold insert_booking, new_booking_row.
  cbn [b_client_id b_professional_id b_service_type].
  destruct fk_enforced; cbn [andb negb]; [|reflexivity].
  destruct (Hfk eq_refl) as [Hcin Hpin].
  rewrite !bool_decide_eq_true_2 by assumption. reflexivity.
Qed.

End BookingStored.

(** ** Round trips *)

Section RoundTrips.
Context {R : Runtime} {L : RuntimeLaws R}.

Lemma init_database_initialized env w :
  db_initialized w = true → init_database env w = (w, true).
Proof. intros Hini. rewrite init_database_unfold, Hini. reflexivity. Qed.

Lemma admin_stats_up env session w :
  admin_logged_in session = true → db_up env = true → schema_ready w →
  admin_stats env session w =
    ((init_database env w).1,
     jsonify (JsonStats (stats_of (init_database env w).1))).
Proof.
  intros Hin Hup Hready.
  destruct (init_database_tables env w Hup Hready) as [t Ht].
  unfold admin_stats. rewrite Hin. cbn [negb].
  unfold try_except, mbind, M_bind, call, select, mret, M_ret.
  rewrite Hup, Ht. unfold stats_of, users_of, bookings_of. rewrite Ht.
  reflexivity.
Qed.

Lemma next_id_fresh ids x : x ∈ ids → (x < next_id ids)%Z.
Proof.
  unfold next_id. induction ids as [|y ids IH]; intros Hin.
  - apply elem_of_nil in Hin. contradiction.
  - apply elem_of_cons in Hin. simpl. destruct Hin as [->|Hin].
    + lia.
    + specialize (IH Hin). lia.
Qed.

Lemma filter_none {A} (P : A → Prop) `{!∀ x, Decision (P x)} (l : list A) :
  (∀ x, x ∈ l → ¬ P x) → filter P l = [].
Proof.
  intros Hno. destruct (filter P l) as [|x l'] eqn:E; [reflexivity|].
  assert (Hx : x ∈ filter P l) by (rewrite E; left).
  apply list_elem_of_filter in Hx. destruct Hx as [HP Hin].
  destruct (Hno x Hin HP).
Qed.

Lemma next_id_pos ids : (0 < next_id ids)%Z.
Proof.
  unfold next_id. induction ids as [|y ids IH]; simpl; lia.
Qed.

(** X6. A registration is found again under the id it returned. After a
    201 of [register], GET /api/professionals/<user_id>, with the driver
    binding that id, answers 200 with the name, phone, profession, city
    and region as they were bound from the payload when [user_type] is
    "professional", and 404 for any other [user_type] (the default
    "client" included): the id is larger than every id of the table, so
    no older row answers for it. *)
Theorem register_then_get_professional :
  ∀ env env' (m : gmap string json) w t n e ph ut pr c r,
    db_up env = true → db_up env' = true →
    tables (init_database env w).1 = Some t →
    m !! "name" = Some (JStr n) → n ≠ "" →
    m !! "email" = Some (JStr e) → e ≠ "" →
    e ∉ User.email <$> users t →
    bind_text (default (JStr "") (m !! "phone")) = Some ph →
    bind_text (default (JStr "client") (m !! "user_type")) = Some (Some ut) →
    bind_text (default (JStr "") (m !! "profession")) = Some pr →
    bind_text (default (JStr "") (m !! "city")) = Some c →
    bind_text (default (JStr "") (m !! "region")) = Some r →
    let u := registered_row (utcnow env) t n e ph ut pr c r in
    bind_int (JInt (User.id u)) = Some (Some (User.id u)) →
    (register env (JObj m) w).2 = registered_response (User.id u) ∧
    (∀ x, x ∈ users t → (User.id x < User.id u)%Z) ∧
    (ut = "professional" →
     (get_professional env' (Z.to_N (User.id u))
        (register env (JObj m) w).1).2
     = jsonify (JsonProfessional (detail u))) ∧
    (ut ≠ "professional" →
     (get_professional env' (Z.to_N (User.id u))
        (register env (JObj m) w).1).2
     = not_found_response).
Proof.
  intros env env' m w t n e ph ut pr c r Hup Hup' Ht Hn Hnn He Hne Hnew
    Hph Hut Hpr Hc Hr u Hbind.
  rewrite (register_success env m w t n e ph ut pr c r) by assumption.
  fold u. cbn [fst snd].
  assert (Hfresh : ∀ x, x ∈ users t → (User.id x < User.id u)%Z).
  { intros x Hx. apply next_id_fresh, list_elem_of_fmap_2, Hx. }
  split; [reflexivity|]. split; [exact Hfresh|].
  assert (Hnat : Z.of_N (Z.to_N (User.id u)) = User.id u).
  { apply Z2N.id. pose proof (next_id_pos (User.id <$> users t)) as Hpos.
    change (User.id u) with (next_id (User.id <$> users t)). lia. }
  rewrite get_professional_unfold, Hnat, Hbind, Hup'.
  cbn [tables users snd]. rewrite filter_matches_key.
  rewrite filter_app.
  rewrite (filter_none (is_professional (User.id u)) (users t)).
  2:{ intros x Hx [Hid _]. specialize (Hfresh x Hx). lia. }
  cbn [app]. split.
  - intros ->. rewrite filter_cons_True; [reflexivity|].
    repeat split.
  - intros Hnot. rewrite filter_cons_False; [reflexivity|].
    intros (_ & Hty & _). apply Hnot. exact Hty.
Qed.

(** X7. A valid booking is counted. When the four required fields bind
    to the columns, the date parses and (where the engine enforces foreign
    keys) both ids are ids of users, [create_booking] answers 201, and the
    statistics an administrator reads afterwards show [total_bookings] and
    [pending_bookings] each one higher than before, with the four user
    counters unchanged. *)
Theorem create_booking_counted :
  ∀ env env' (m : gmap string json) w t cj pj sj ds c p s d n cost,
    db_up env = true → db_up env' = true →
    tables (init_database env w).1 = Some t →
    m !! "client_id" = Some cj → bind_int cj = Some (Some c) →
    m !! "professional_id" = Some pj → bind_int pj = Some (Some p) →
    m !! "service_type" = Some sj → bind_text sj = Some (Some s) →
    m !! "booking_date" = Some (JStr ds) → fromisoformat ds = Some d →
    bind_text (default (JStr "") (m !! "notes")) = Some n →
    bind_float (default (JFloat 0.0) (m !! "total_cost")) = Some cost →
    (fk_enforced = true →
     c ∈ User.id <$> users t ∧ p ∈ User.id <$> users t) →
    let w1 := (init_database env w).1 in
    let w' := (create_booking env (JObj m) w).1 in
    status (create_booking env (JObj m) w).2 = 201%Z ∧
    ∃ before after,
      (admin_stats env' LoggedIn w1).2 = jsonify (JsonStats before) ∧
      (admin_stats env' LoggedIn w').2 = jsonify (JsonStats after) ∧
      total_bookings after = S (total_bookings before) ∧
      pending_bookings after = S (pending_bookings before) ∧
      total_users after = total_users before ∧
      total_professionals after = total_professionals before ∧
      total_clients after = total_clients before ∧
      verified_professionals after = verified_professionals before.
Proof.
  intros env env' m w t cj pj sj ds c p s d n cost Hup Hup' Ht
    Hc Hbc Hp Hbp Hs Hbs Hd Hiso Hn Hcost Hfk w1 w'.
  subst w'.
  rewrite (create_booking_success env m w t cj pj sj ds c p s d n cost)
    by assumption.
  cbn [fst snd]. split; [reflexivity|].
  assert (Hflag : db_initialized w1 = true).
  { subst w1. rewrite init_database_flag, Hup. apply orb_true_r. }
  fold w1 in Ht |- *. rewrite Hflag.
  set (w' := {| tables := _; db_initialized := true |}).
  assert (Hr1 : schema_ready w1) by (intros _; eexists; exact Ht).
  assert (Hr' : schema_ready w') by (intros _; eexists; reflexivity).
  exists (stats_of w1), (stats_of w').
  rewrite (admin_stats_up env' LoggedIn w1 eq_refl Hup' Hr1).
  rewrite (admin_stats_up env' LoggedIn w' eq_refl Hup' Hr').
  rewrite (init_database_initialized env' w1 Hflag).
  rewrite (init_database_initialized env' w' eq_refl).
  cbn [fst snd]. split; [reflexivity|]. split; [reflexivity|].
  unfold stats_of, users_of, bookings_of, w'. rewrite Ht.
  cbn [tables users bookings total_bookings pending_bookings total_users
       total_professionals total_clients verified_professionals].
  rewrite filter_app, !length_app.
  rewrite filter_cons_True by reflexivity.
  rewrite filter_nil. cbn [length]. repeat split; lia.
Qed.

End RoundTrips.

(** ** Invariants of the routes, one environment at a time *)

Section RouteInvariant.
Context {R : Runtime}.
Variable env : Env.
Variables I J : World → Prop.
Hypothesis init_J : ∀ w, I w → J (init_database env w).1.
Hypothesis J_I : ∀ w, J w → I w.
Hypothesis user_J : ∀ w t t' u i,
  db_up env = true → J w → tables w = Some t →
  insert_user (utcnow env) i t = inr (t', u) →
  J {| tables := Some t'; db_initialized := db_initialized w |}.
Hypothesis booking_J : ∀ w t t' b i,
  db_up env = true → J w → tables w = Some t →
  insert_booking (utcnow env) i t = inr (t', b) →
  J {| tables := Some t'; db_initialized := db_initialized w |}.

Lemma route_keeps {A} (rest : M A) handler w :
  (∀ e w', (handler e w').1 = w') →
  preserves J rest →
  I w → I (try_except (call (init_database env) ;; rest) handler w).1.
Proof.
  intros Hh Hrest Hw. apply J_I.
  unfold try_except, mbind, M_bind, call.
  specialize (Hrest _ (init_J w Hw)).
  destruct (rest (init_database env w).1) as [w1 [e|a]]; simpl in *.
  - rewrite Hh. exact Hrest.
  - exact Hrest.
Qed.

Lemma handle_keeps req session w :
  I w → I (handle env req (session, w)).1.2.
Proof.
  intros Hw. destruct req; simpl.
  - apply J_I, init_J, Hw.
  - exact Hw.
  - unfold get_professionals.
    apply route_keeps; [reflexivity| |exact Hw]. preserve.
  - rewrite get_professional_unfold. exact Hw.
  - unfold register. apply route_keeps; [reflexivity| |exact Hw].
    preserve. apply preserves_commit. intros; eapply user_J; eauto.
  - unfold create_booking. apply route_keeps; [reflexivity| |exact Hw].
    preserve. apply preserves_commit. intros; eapply booking_J; eauto.
  - exact Hw.
  - unfold admin_dashboard. destruct (negb (admin_logged_in session)).
    + exact Hw.
    + apply J_I, init_J, Hw.
  - exact Hw.
  - unfold admin_stats. destruct (negb (admin_logged_in session)).
    + exact Hw.
    + apply route_keeps; [reflexivity| |exact Hw]. preserve.
  - exact Hw.
Qed.

End RouteInvariant.

Section StoreInvariants.
Context {R : Runtime}.

Lemma bookings_of_init_database env w :
  bookings_of (init_database env w).1 = bookings_of w.
Proof.
  rewrite init_database_unfold.
  destruct (db_initialized w); [reflexivity|].
  destruct (db_up env); [|reflexivity].
  unfold bookings_of, initialized; cbn [tables fst].
  destruct (tables w) as [t|]; [|reflexivity].
  destruct (users t); reflexivity.
Qed.

Lemma users_of_init_database_prefix env w :
  users_of w `prefix_of` users_of (init_database env w).1.
Proof.
  rewrite users_of_init_database.
  destruct (db_initialized w); [reflexivity|].
  destruct (db_up env); [|reflexivity].
  destruct (users_of w); [apply prefix_nil|reflexivity].
Qed.

Lemma extends_refl w : extends w w.
Proof. split; reflexivity. Qed.

Lemma extends_trans w1 w2 w3 : extends w1 w2 → extends w2 w3 → extends w1 w3.
Proof. intros [Hu Hb] [Hu' Hb']. split; etrans; eassumption. Qed.

Lemma extends_handle env req session w :
  extends w (handle env req (session, w)).1.2.
Proof.
  apply (handle_keeps env (extends w) (extends w)).
  - intros w' [Hu Hb]. split.
    + etrans; [exact Hu|apply users_of_init_database_prefix].
    + rewrite bookings_of_init_database. exact Hb.
  - auto.
  - intros w' t t' u i _ [Hu Hb] Ht Htx.
    apply insert_user_inr in Htx. destruct Htx as [_ ->].
    unfold users_of, bookings_of in *. rewrite Ht in Hu, Hb. cbn.
    split; [apply prefix_app_r; exact Hu|exact Hb].
  - intros w' t t' b i _ [Hu Hb] Ht Htx.
    apply insert_booking_inr in Htx. destruct Htx as [_ ->].
    unfold users_of, bookings_of in *. rewrite Ht in Hu, Hb. cbn.
    split; [exact Hu|apply prefix_app_r; exact Hb].
  - apply extends_refl.
Qed.

(** X8. The store only grows. Whatever the request and whatever the
    engine does, the user rows and the booking rows before it are, row
    for row, the first rows after it: no route deletes or rewrites a row.
    The same holds across any sequence of requests. *)
Theorem store_append_only :
  (∀ env req session w, extends w (handle env req (session, w)).1.2) ∧
  (∀ trace st, extends st.2 (serve trace st).2).
Proof.
  split; [exact extends_handle|].
  intros trace. induction trace as [|[env req] trace IH]; intros [session w].
  - apply extends_refl.
  - change (serve ((env, req) :: trace) (session, w))
      with (serve trace (handle env req (session, w)).1).
    eapply extends_trans; [apply (extends_handle env req session w)|].
    apply IH.
Qed.

End StoreInvariants.

Section MoreInvariants.
Context {R : Runtime}.

Lemma seeded_users_ids now : User.id <$> seeded_users now = [1; 2; 3; 4]%Z.
Proof. reflexivity. Qed.

Lemma next_id_not_in ids : next_id ids ∉ ids.
Proof. intros Hin. apply next_id_fresh in Hin. lia. Qed.

Lemma ids_unique_handle env req session w :
  ids_unique w → ids_unique (handle env req (session, w)).1.2.
Proof.
  apply (handle_keeps env ids_unique ids_unique).
  - intros w' [Hu Hb]. split.
    + rewrite users_of_init_database.
      destruct (db_initialized w'); [exact Hu|].
      destruct (db_up env); [|exact Hu].
      destruct (users_of w'); [|exact Hu].
      rewrite seeded_users_ids. apply (bool_decide_unpack _). reflexivity.
    + rewrite bookings_of_init_database. exact Hb.
  - auto.
  - intros w' t t' u i _ [Hu Hb] Ht Htx.
    apply insert_user_inr in Htx. destruct Htx as [Hrow ->].
    apply new_user_row_inr in Hrow. destruct Hrow as (_ & Hid & _).
    unfold ids_unique, users_of, bookings_of in *. rewrite Ht in Hu, Hb.
    cbn. split; [|exact Hb].
    rewrite fmap_app. apply NoDup_app. split; [exact Hu|].
    split; [|apply NoDup_singleton].
    intros x Hx Hin. apply list_elem_of_singleton in Hin. subst x.
    rewrite Hid in Hx. exact (next_id_not_in _ Hx).
  - intros w' t t' b i _ [Hu Hb] Ht Htx.
    apply insert_booking_inr in Htx. destruct Htx as [Hrow ->].
    apply new_booking_row_inr in Hrow. destruct Hrow as (Hid & _).
    unfold ids_unique, users_of, bookings_of in *. rewrite Ht in Hu, Hb.
    cbn. split; [exact Hu|].
    rewrite fmap_app. apply NoDup_app. split; [exact Hb|].
    split; [|apply NoDup_singleton].
    intros x Hx Hin. apply list_elem_of_singleton in Hin. subst x.
    rewrite Hid in Hx. exact (next_id_not_in _ Hx).
Qed.

(** X9. Ids identify rows. If no two users and no two bookings share an
    id, the same holds after any sequence of requests; in particular it
    holds in every state a fresh process reaches. *)
Theorem ids_stay_unique :
  (∀ trace st, ids_unique st.2 → ids_unique (serve trace st).2) ∧
  (∀ trace session, ids_unique (serve trace (session, fresh)).2).
Proof.
  assert (H : ∀ trace st, ids_unique st.2 → ids_unique (serve trace st).2).
  { apply serve_invariant. exact ids_unique_handle. }
  split; [exact H|].
  intros trace session. apply H. split; apply NoDup_nil_2.
Qed.

Lemma all_pending_handle env req session w :
  all_pending w → all_pending (handle env req (session, w)).1.2.
Proof.
  apply (handle_keeps env all_pending all_pending).
  - intros w' Hw. unfold all_pending.
    rewrite bookings_of_init_database. exact Hw.
  - auto.
  - intros w' t t' u i _ Hw Ht Htx.
    apply insert_user_inr in Htx. destruct Htx as [_ ->].
    unfold all_pending, bookings_of in *. rewrite Ht in Hw. exact Hw.
  - intros w' t t' b i _ Hw Ht Htx.
    apply insert_booking_inr in Htx. destruct Htx as [Hrow ->].
    apply new_booking_row_inr in Hrow. destruct Hrow as (_ & Hst & _).
    unfold all_pending, bookings_of in *. rewrite Ht in Hw. cbn.
    apply Forall_app. split; [exact Hw|]. apply Forall_singleton. exact Hst.
Qed.

Lemma filter_all {A} (P : A → Prop) `{!∀ x, Decision (P x)} (l : list A) :
  Forall P l → filter P l = l.
Proof.
  induction 1 as [|x l Hx _ IH]; [reflexivity|].
  rewrite filter_cons_True by exact Hx. f_equal. exact IH.
Qed.

(** X10. No route changes the status of a booking: a booking is stored
    as "pending" and stays so. Hence, in every state a fresh process
    reaches, every booking is pending and the statistics show
    [pending_bookings] equal to [total_bookings]. *)
Theorem bookings_stay_pending :
  (∀ trace st, all_pending st.2 → all_pending (serve trace st).2) ∧
  (∀ trace session,
     let w := (serve trace (session, fresh)).2 in
     all_pending w ∧
     pending_bookings (stats_of w) = total_bookings (stats_of w)).
Proof.
  assert (H : ∀ trace st, all_pending st.2 → all_pending (serve trace st).2).
  { apply serve_invariant. exact all_pending_handle. }
  split; [exact H|].
  intros trace session w.
  assert (Hw : all_pending w) by (apply H; constructor).
  split; [exact Hw|].
  unfold stats_of; cbn. rewrite filter_all by exact Hw. reflexivity.
Qed.

Lemma references_ok_handle env req session w :
  fk_enforced = true →
  references_ok w → references_ok (handle env req (session, w)).1.2.
Proof.
  intros Hfk.
  assert (Hmono : ∀ (us us' : list User.t) (bs : list Booking.t),
    us `prefix_of` us' →
    Forall (λ b, Booking.client_id b ∈ User.id <$> us ∧
                 Booking.professional_id b ∈ User.id <$> us) bs →
    Forall (λ b, Booking.client_id b ∈ User.id <$> us' ∧
                 Booking.professional_id b ∈ User.id <$> us') bs).
  { intros us us' bs [k ->] Hbs. eapply Forall_impl; [exact Hbs|].
    intros b [Hc Hp].
    rewrite fmap_app. split; apply elem_of_app; left; assumption. }
  apply (handle_keeps env references_ok references_ok).
  - intros w' Hw. unfold references_ok.
    rewrite bookings_of_init_database.
    eapply Hmono; [apply users_of_init_database_prefix|exact Hw].
  - auto.
  - intros w' t t' u i _ Hw Ht Htx.
    apply insert_user_inr in Htx. destruct Htx as [_ ->].
    unfold references_ok, users_of, bookings_of in *. rewrite Ht in Hw. cbn.
    eapply Hmono; [|exact Hw]. apply prefix_app_r. reflexivity.
  - intros w' t t' b i _ Hw Ht Htx.
    apply insert_booking_inr in Htx. destruct Htx as [Hrow ->].
    apply new_booking_row_inr in Hrow.
    destruct Hrow as (_ & _ & _ & _ & Href).
    unfold references_ok, users_of, bookings_of in *. rewrite Ht in Hw. cbn.
    apply Forall_app. split; [exact Hw|]. apply Forall_singleton.
    exact (Href Hfk).
Qed.

(** X11. Referential integrity, where the engine enforces the two
    foreign keys: in every state a fresh process reaches, the [client_id]
    and the [professional_id] of every booking are ids of user rows. The
    route itself never looks the ids up; the guarantee rests on the
    constraint and on users never being deleted. *)
Theorem bookings_reference_users :
  fk_enforced = true →
  (∀ trace st, references_ok st.2 → references_ok (serve trace st).2) ∧
  (∀ trace session, references_ok (serve trace (session, fresh)).2).
Proof.
  intros Hfk.
  assert (H : ∀ trace st, references_ok st.2 → references_ok (serve trace st).2).
  { apply serve_invariant. intros env req session w.
    apply references_ok_handle. exact Hfk. }
  split; [exact H|]. intros trace session. apply H. constructor.
Qed.

End MoreInvariants.

(** ** When the engine does not answer *)

Section EngineDown.
Context {R : Runtime}.

Lemma init_database_down env w :
  db_up env = false → (init_database env w).1 = w.
Proof.
  intros Hdown. rewrite init_database_unfold, Hdown.
  destruct (db_initialized w); reflexivity.
Qed.

Lemma engine_down_handle env req session w :
  db_up env = false → (handle env req (session, w)).1.2 = w.
Proof.
  intros Hdown.
  apply (handle_keeps env (λ w', w' = w) (λ w', w' = w)).
  - intros w' ->. apply init_database_down. exact Hdown.
  - auto.
  - intros; congruence.
  - intros; congruence.
  - reflexivity.
Qed.

Lemma app_singleton_neq {A} (l : list A) x : l ≠ (l ++ [x])%list.
Proof.
  intros H. apply (f_equal length) in H. rewrite length_app in H.
  simpl in H. lia.
Qed.

(** X13. While the engine does not answer, no request changes the state
    of the process or of the database, and none is answered 201:
    [register] and [create_booking] still answer 400 to what their
    validation rejects and 500 to everything else; the listing, the
    detail and the statistics answer their 500; the home page and the
    health check still answer 200. *)
Theorem engine_down :
  ∀ env, db_up env = false →
    (∀ req session w, (handle env req (session, w)).1.2 = w) ∧
    (∀ data w, status (register env data w).2 = 400%Z ∨
               status (register env data w).2 = 500%Z) ∧
    (∀ data w, status (create_booking env data w).2 = 400%Z ∨
               status (create_booking env data w).2 = 500%Z) ∧
    (∀ profession city w,
       (get_professionals env profession city w).2 = listing_error_response) ∧
    (∀ prof_id w, (get_professional env prof_id w).2 = detail_error_response) ∧
    (∀ session w, admin_logged_in session = true →
       (admin_stats env session w).2 = stats_error_response) ∧
    (∀ w, status (home env w).2 = 200%Z ∧ status (health env w).2 = 200%Z).
Proof.
  intros env Hdown.
  split; [intros; apply engine_down_handle; exact Hdown|].
  split.
  { intros data w. apply register_atomic. intros Hst.
    destruct (register env data w) as [w' resp] eqn:Hreg. cbn [snd] in Hst.
    destruct (register_created env data w w' resp Hreg Hst)
      as (t & u & Ht & Ht' & _).
    pose proof (engine_down_handle env (PostRegister data) LoggedOut w Hdown)
      as Hsame.
    cbn in Hsame. rewrite Hreg in Hsame. cbn in Hsame. subst w'.
    rewrite init_database_down in Ht by exact Hdown.
    rewrite Ht in Ht'. injection Ht' as Hus.
    apply (f_equal users) in Hus. exact (app_singleton_neq _ _ Hus). }
  split.
  { intros data w. apply create_booking_atomic. intros Hst.
    destruct (create_booking env data w) as [w' resp] eqn:Hbook.
    cbn [snd] in Hst.
    destruct (create_booking_created env data w w' resp Hbook Hst)
      as (t & b & Ht & Ht' & _).
    pose proof (engine_down_handle env (PostBookings data) LoggedOut w Hdown)
      as Hsame.
    cbn in Hsame. rewrite Hbook in Hsame. cbn in Hsame. subst w'.
    rewrite init_database_down in Ht by exact Hdown.
    rewrite Ht in Ht'. injection Ht' as Hbs.
    apply (f_equal bookings) in Hbs. exact (app_singleton_neq _ _ Hbs). }
  split.
  { intros profession city w.
    unfold get_professionals, try_except, mbind, M_bind, call, select.
    rewrite Hdown. reflexivity. }
  split.
  { intros prof_id w. rewrite get_professional_unfold, Hdown. cbn [snd].
    destruct (bind_int (JInt (Z.of_N prof_id))); reflexivity. }
  split.
  { intros session w Hin. unfold admin_stats. rewrite Hin. cbn [negb].
    unfold try_except, mbind, M_bind, call, select.
    rewrite Hdown. reflexivity. }
  intros w. split; reflexivity.
Qed.

End EngineDown.

Lemma engine_down_witness :
  (handle offline_env (PostRegister (JObj anna_fields)) (LoggedOut, seeded)).1.2
    = seeded ∧
  (get_professionals offline_env None None seeded).2 = listing_error_response.
Proof.
  destruct (engine_down offline_env eq_refl) as (Hsame & _ & _ & Hlist & _).
  split; [apply Hsame|apply Hlist].
Defined.

(** ** The states a process reaches *)

Section Reachable.
Context {R : Runtime}.

Lemma started_handle env req session w :
  w = fresh ∨ started w →
  (handle env req (session, w)).1.2 = fresh ∨
  started (handle env req (session, w)).1.2.
Proof.
  apply (handle_keeps env (λ w', w' = fresh ∨ started w')
           (λ w', (db_up env = false ∧ w' = fresh) ∨ started w')).
  - intros w' [->|Hst].
    + rewrite init_database_unfold. cbn [db_initialized fresh].
      destruct (db_up env); [right|left; auto].
      split; [reflexivity|]. split; [eexists; reflexivity|].
      exists (utcnow env), []. symmetry. apply app_nil_r.
    + right. destruct Hst as (Hini & Hst).
      rewrite init_database_unfold, Hini. split; assumption.
  - intros w' [[_ ->]|Hst]; auto.
  - intros w' t t' u i Hup [[Hdown _]|(Hini & _ & now & regs & Hus)] Ht Htx;
      [congruence|].
    apply insert_user_inr in Htx. destruct Htx as [_ ->].
    right. split; [exact Hini|]. split; [eexists; reflexivity|].
    exists now, (regs ++ [u])%list.
    unfold users_of in *. rewrite Ht in Hus. cbn [tables users].
    rewrite Hus. symmetry. apply app_assoc.
  - intros w' t t' b i Hup [[Hdown _]|(Hini & _ & now & regs & Hus)] Ht Htx;
      [congruence|].
    apply insert_booking_inr in Htx. destruct Htx as [_ ->].
    right. split; [exact Hini|]. split; [eexists; reflexivity|].
    exists now, regs.
    unfold users_of in *. rewrite Ht in Hus. exact Hus.
Qed.

(** X16. Whatever requests a fresh process has served, it is in one of
    two states. Either nothing has happened yet: the flag is unset and
    the database is as it was at the start (every request so far found
    the engine down or touched no table). Or it has started: the flag is
    set, the tables exist and [users] begins with the four seed rows. In
    both, an initialized process has its tables, which is what the
    listing and the statistics rely on. *)
Theorem reachable_states :
  ∀ trace session,
    let w := (serve trace (session, fresh)).2 in
    (w = fresh ∨ started w) ∧
    (db_initialized w = false → w = fresh) ∧
    schema_ready w.
Proof.
  intros trace session w.
  assert (H : w = fresh ∨ started w).
  { subst w.
    apply (serve_invariant (λ w', w' = fresh ∨ started w')).
    - exact started_handle.
    - left. reflexivity. }
  split; [exact H|]. split.
  - intros Hini. destruct H as [H|(Hst & _)]; [exact H|congruence].
  - destruct H as [->|(_ & Hsome & _)]; intros Hini.
    + discriminate Hini.
    + exact Hsome.
Qed.

End Reachable.

(** ** The admin session *)

Section AdminSession.
Context {R : Runtime}.

Lemma session_eq (s s' : Session) :
  admin_logged_in s = admin_logged_in s' → s = s'.
Proof. destruct s, s'. simpl. intros ->. reflexivity. Qed.

Lemma admin_login_session env method username password session :
  (method = POST ∧
   username = Some (default "admin" (ADMIN_USERNAME env)) ∧
   password = Some (default "admin123" (ADMIN_PASSWORD env)) ∧
   (admin_login env method username password session).1 = LoggedIn) ∨
  (¬ (method = POST ∧
      username = Some (default "admin" (ADMIN_USERNAME env)) ∧
      password = Some (default "admin123" (ADMIN_PASSWORD env))) ∧
   (admin_login env method username password session).1 = session).
Proof.
  unfold admin_login. destruct method.
  - right. split; [|reflexivity]. intros (H & _). discriminate H.
  - destruct (decide (username = Some (default "admin" (ADMIN_USERNAME env))))
      as [Hu|Hu];
    destruct (decide (password = Some (default "admin123" (ADMIN_PASSWORD env))))
      as [Hp|Hp].
    + left. rewrite !bool_decide_eq_true_2 by assumption. auto.
    + right. rewrite (bool_decide_eq_false_2 _ Hp), andb_false_r.
      split; [tauto|reflexivity].
    + right. rewrite (bool_decide_eq_false_2 _ Hu).
      split; [tauto|reflexivity].
    + right. rewrite (bool_decide_eq_false_2 _ Hu).
      split; [tauto|reflexivity].
Qed.

Lemma handle_session env req session w :
  (handle env req (session, w)).1.1 = LoggedIn ↔
  credentials_ok env req ∨ (session = LoggedIn ∧ req ≠ AdminLogout).
Proof.
  unfold credentials_ok.
  destruct req; cbn [handle fst snd];
    try (split; [intros ->; right; split; [reflexivity|discriminate]
                |intros [H|[-> _]]; [discriminate H|reflexivity]]).
  - destruct (admin_login_session env method username password session)
      as [(-> & -> & -> & Hin)|(Hno & Hsame)].
    + rewrite Hin. split; [left|]; reflexivity.
    + rewrite Hsame. split.
      * intros ->. right. split; [reflexivity|discriminate].
      * intros [H|[-> _]]; [|reflexivity].
        injection H as -> -> ->. exfalso. apply Hno. auto.
  - split; [discriminate|]. intros [H|[_ H]]; [discriminate H|].
    contradiction H. reflexivity.
Qed.

(** X12. The session flag has one way in and one way out. A request
    leaves the session logged in exactly when it is a POST to the login
    route with both configured credentials ([admin] / [admin123] where
    the environment sets none), or the session was logged in already and
    the request is not the logout: a failed login, a GET of the login
    page or a missing form field does not log in, and does not end a
    session either. So after any requests without such a POST, a session
    that started logged out is still logged out and the statistics answer
    401. *)
Theorem admin_session :
  (∀ env req session w,
     (handle env req (session, w)).1.1 = LoggedIn ↔
     credentials_ok env req ∨ (session = LoggedIn ∧ req ≠ AdminLogout)) ∧
  (∀ trace w,
     Forall (λ er, ¬ credentials_ok er.1 er.2) trace →
     (serve trace (LoggedOut, w)).1 = LoggedOut ∧
     ∀ env, (handle env AdminStats (serve trace (LoggedOut, w))).2
            = unauthorized_response).
Proof.
  split; [exact handle_session|].
  assert (H : ∀ trace w,
     Forall (λ er, ¬ credentials_ok er.1 er.2) trace →
     (serve trace (LoggedOut, w)).1 = LoggedOut).
  { induction trace as [|[env req] trace IH]; intros w Hno; [reflexivity|].
    apply Forall_cons in Hno. destruct Hno as [Hreq Hno].
    change (serve ((env, req) :: trace) (LoggedOut, w))
      with (serve trace (handle env req (LoggedOut, w)).1).
    destruct (handle env req (LoggedOut, w)).1 as [s w'] eqn:Hstep.
    assert (Hs : s = LoggedOut).
    { apply session_eq. cbn. destruct (admin_logged_in s) eqn:Hflag;
        [|reflexivity].
      exfalso.
      assert (Hin : (handle env req (LoggedOut, w)).1.1 = LoggedIn)
        by (rewrite Hstep; apply session_eq; exact Hflag).
      apply handle_session in Hin. destruct Hin as [Hc|[Hc _]].
      - exact (Hreq Hc).
      - discriminate Hc. }
    subst s. apply IH. exact Hno. }
  intros trace w Hno. split; [apply H; exact Hno|].
  intros env. specialize (H trace w Hno).
  destruct (serve trace (LoggedOut, w)) as [s w']. cbn in H. subst s.
  reflexivity.
Qed.

End AdminSession.

(** ** Listing: what the filters do *)

Section ListingFilters.
Context {R : Runtime}.

(** X14. Filters only narrow the listing. While the engine answers,
    every entry of GET /api/professionals with filters is an entry of the
    listing without filters, which is at least as long; and when no row
    matches, the answer is 200 with an empty array, not an error. *)
Theorem get_professionals_filters :
  ∀ env profession city w,
    db_up env = true → schema_ready w →
    (∀ s, s ∈ listing (get_professionals env profession city w).2 →
          s ∈ listing (get_professionals env None None w).2) ∧
    (length (listing (get_professionals env profession city w).2)
      ≤ length (listing (get_professionals env None None w).2))%nat ∧
    (filter (matches_given profession city)
       (users_of (init_database env w).1) = [] →
     (get_professionals env profession city w).2
     = jsonify (JsonProfessionals [])).
Proof.
  intros env profession city w Hup Hready.
  rewrite !(get_professionals_up env _ _ w Hup Hready).
  unfold listing; cbn [snd body jsonify].
  set (rows := users_of (init_database env w).1).
  assert (Hsub : filter (matches_given profession city) rows =
                 filter (matches_given profession city)
                   (filter (matches_given None None) rows)).
  { rewrite list_filter_filter. apply list_filter_iff. intros u.
    unfold matches_given. cbn [arg_given]. intuition discriminate. }
  split; [|split].
  - intros s Hs. apply list_elem_of_fmap in Hs.
    destruct Hs as (u & -> & Hu). apply list_elem_of_fmap_2.
    apply (proj2 (elem_of_order_by_rating_desc _ _)).
    apply (proj1 (elem_of_order_by_rating_desc _ _)) in Hu.
    rewrite Hsub in Hu.
    apply (proj1 (list_elem_of_filter _ _ _)) in Hu. tauto.
  - rewrite !length_fmap. unfold order_by_rating_desc.
    rewrite !merge_sort_Permutation, Hsub. apply length_filter.
  - intros Hnone. rewrite Hnone. reflexivity.
Qed.

End ListingFilters.

Lemma get_professionals_filters_witness :
  (length (listing (get_professionals sample_env (Some "Veterinario")
                      (Some "Roma") seeded).2)
    ≤ length (listing (get_professionals sample_env None None seeded).2))%nat ∧
  (get_professionals sample_env (Some "Veterinario") (Some "Roma") seeded).2
    = jsonify (JsonProfessionals []).
Proof.
  destruct (get_professionals_filters sample_env (Some "Veterinario")
              (Some "Roma") seeded eq_refl schema_ready_seeded)
    as (_ & Hlen & Hnone).
  split; [exact Hlen|]. apply Hnone. vm_compute. reflexivity.
Defined.

(** ** Statistics: how the counters relate *)

Section StatsRelations.
Context {R : Runtime}.

Lemma length_filter_disjoint {A} (P Q : A → Prop)
    `{!∀ x, Decision (P x)} `{!∀ x, Decision (Q x)} (l : list A) :
  (∀ x, P x → Q x → False) →
  (length (filter P l) + length (filter Q l) ≤ length l)%nat.
Proof.
  intros Hdis. induction l as [|x l IH]; [reflexivity|].
  rewrite !filter_cons.
  destruct (decide (P x)) as [HP|HP], (decide (Q x)) as [HQ|HQ];
    cbn [length]; try lia.
  destruct (Hdis x HP HQ).
Qed.

Lemma length_filter_impl {A} (P Q : A → Prop)
    `{!∀ x, Decision (P x)} `{!∀ x, Decision (Q x)} (l : list A) :
  (∀ x, P x → Q x) → (length (filter P l) ≤ length (filter Q l))%nat.
Proof.
  intros Himp. induction l as [|x l IH]; [reflexivity|].
  rewrite !filter_cons.
  destruct (decide (P x)) as [HP|HP], (decide (Q x)) as [HQ|HQ];
    cbn [length]; try lia.
  destruct (HQ (Himp x HP)).
Qed.

Lemma stats_of_relations w :
  (verified_professionals (stats_of w) ≤ total_professionals (stats_of w))%nat ∧
  (total_professionals (stats_of w) + total_clients (stats_of w)
    ≤ total_users (stats_of w))%nat ∧
  (pending_bookings (stats_of w) ≤ total_bookings (stats_of w))%nat.
Proof.
  unfold stats_of; cbn. split; [|split].
  - apply length_filter_impl. tauto.
  - apply length_filter_disjoint. intros u Hp Hc. rewrite Hp in Hc.
    discriminate Hc.
  - apply length_filter.
Qed.

Lemma admin_stats_200 env session w s :
  (admin_stats env session w).2 = jsonify (JsonStats s) →
  s = stats_of (init_database env w).1.
Proof.
  unfold admin_stats. destruct (negb (admin_logged_in session));
    [discriminate|].
  unfold try_except.
  match goal with
  | |- context [?b w] =>
      match type of b with M Response =>
        destruct (b w) as [w2 [e|a]] eqn:Hbody
      end
  end; [discriminate|].
  cbn [snd]. intros ->. monad_inv Hbody.
  apply mret_ok in Hbody. destruct Hbody as [_ Hbody].
  injection Hbody as ->. unfold stats_of, users_of, bookings_of.
  match goal with Ht : tables _ = Some _ |- _ => rewrite Ht end.
  match goal with
  | H1 : tables ?w1 = Some ?t1, H2 : tables ?w1 = Some ?t2 |- _ =>
      rewrite H1 in H2; injection H2 as <-
  end.
  reflexivity.
Qed.

(** X15. The counters of every 200 of the statistics route are
    consistent: verified professionals are at most the professionals,
    professionals and clients together are at most the users (a row with
    any other [user_type] is a user and neither), and pending bookings are
    at most the bookings. *)
Theorem admin_stats_relations :
  ∀ env session w s,
    (admin_stats env session w).2 = jsonify (JsonStats s) →
    (verified_professionals s ≤ total_professionals s)%nat ∧
    (total_professionals s + total_clients s ≤ total_users s)%nat ∧
    (pending_bookings s ≤ total_bookings s)%nat.
Proof.
  intros env session w s Hresp.
  rewrite (admin_stats_200 env session w s Hresp).
  apply stats_of_relations.
Qed.

End StatsRelations.

Lemma admin_stats_relations_witness :
  (verified_professionals (stats_of seeded)
    ≤ total_professionals (stats_of seeded))%nat ∧
  (total_professionals (stats_of seeded) + total_clients (stats_of seeded)
    ≤ total_users (stats_of seeded))%nat ∧
  (pending_bookings (stats_of seeded) ≤ total_bookings (stats_of seeded))%nat.
Proof.
  apply (admin_stats_relations sample_env LoggedIn seeded (stats_of seeded)).
  vm_compute. reflexivity.
Defined.

(** ** Bookings: payloads that are not objects *)

Section BookingShapes.
Context {R : Runtime}.

(** X17. A booking payload that is not an object never stores a booking.
    An array or a string passes the presence check when it contains the
    four field names (as elements, as substrings) and then fails on
    [data['client_id']] with the generic 500; when a name is missing the
    answer is the 400 of the check; [null], a number or a boolean is
    answered 500 by the check itself. *)
Theorem create_booking_not_object :
  ∀ env data w,
    (∀ m, data ≠ JObj m) →
    (create_booking env data w).1 = (init_database env w).1 ∧
    (py_all_in required_fields data = inr false →
     (create_booking env data w).2 = missing_fields_response) ∧
    (py_all_in required_fields data ≠ inr false →
     (create_booking env data w).2 = booking_error_response).
Proof.
  intros env data w Hobj. rewrite create_booking_unfold.
  destruct (py_all_in required_fields data) as [e|[|]].
  - split; [reflexivity|]. split; [discriminate|reflexivity].
  - assert (Hbody : ∀ w1,
      try_except
        (c ← lift (py_item data "client_id");
         p ← lift (py_item data "professional_id");
         s ← lift (py_item data "service_type");
         d ← lift (py_item data "booking_date");
         d ← lift (parse_date d);
         n ← lift (py_get data "notes" (JStr ""));
         cost ← lift (py_get data "total_cost" (JFloat 0.0));
         c ← bound (bind_int c);
         p ← bound (bind_int p);
         s ← bound (bind_text s);
         n ← bound (bind_text n);
         cost ← bound (bind_float cost);
         let new_booking :=
           {| b_client_id := c; b_professional_id := p; b_service_type := s;
              b_booking_date := d; b_notes := n; b_total_cost := cost |} in
         b ← commit env (insert_booking (utcnow env) new_booking);
         mret (jsonify_code
                 (JsonBooked "Prenotazione creata con successo" (Booking.id b))
                 201))
        (λ _ w', (rollback w', booking_error_response)) w1
      = (w1, booking_error_response)).
    { intros w1. destruct data; try reflexivity.
      exfalso. eapply Hobj. reflexivity. }
    rewrite Hbody. split; [reflexivity|].
    split; [discriminate|reflexivity].
  - split; [reflexivity|]. split; [reflexivity|].
    intros H. contradiction H. reflexivity.
Qed.

End BookingShapes.

Lemma create_booking_not_object_witness :
  (create_booking sample_env
     (JArr [JStr "client_id"; JStr "professional_id"; JStr "service_type";
            JStr "booking_date"]) seeded).2 = booking_error_response ∧
  (create_booking sample_env
     (JStr "client_id professional_id service_type booking_date") seeded).2
    = booking_error_response ∧
  (create_booking sample_env (JStr "client_id") seeded).2
    = missing_fields_response.
Proof.
  split; [|split].
  - apply create_booking_not_object; [discriminate|].
    vm_compute. discriminate.
  - apply create_booking_not_object; [discriminate|].
    vm_compute. discriminate.
  - apply create_booking_not_object; [discriminate|].
    vm_compute. reflexivity.
Defined.

(** ** Which routes initialize *)

Section Initializing.
Context {R : Runtime}.

Lemma route_world {A} env (rest : M A) handler w :
  (∀ e w', (handler e w').1 = w') →
  preserves (λ x, x = (init_database env w).1) rest →
  (try_except (call (init_database env) ;; rest) handler w).1
  = (init_database env w).1.
Proof.
  intros Hh Hrest. unfold try_except, mbind, M_bind, call.
  specialize (Hrest _ eq_refl).
  destruct (rest (init_database env w).1) as [w1 [e|a]]; simpl in *.
  - rewrite Hh. exact Hrest.
  - exact Hrest.
Qed.

Lemma initialized_after env w w' :
  db_up env = true → schema_ready w →
  (w' = (init_database env w).1 ∨
   ∃ t', tables w' = Some t' ∧
         db_initialized w' = db_initialized (init_database env w).1) →
  db_initialized w' = true ∧ is_Some (tables w').
Proof.
  intros Hup Hready H.
  assert (Hflag : db_initialized (init_database env w).1 = true).
  { rewrite init_database_flag, Hup. apply orb_true_r. }
  destruct (init_database_tables env w Hup Hready) as [t Ht].
  destruct H as [->|(t' & Ht' & Hsame)].
  - split; [exact Hflag|]. eexists. exact Ht.
  - split; [congruence|]. eexists. exact Ht'.
Qed.

(** X18. Which requests initialize. The home page, the listing,
    [register], [create_booking] and, behind the session check, the
    dashboard and the statistics call [init_database]: served while the
    engine answers, each leaves the process initialized with its tables.
    The detail route, the health check, login, logout and unmatched
    routes, and the two admin routes without a session, leave the state
    exactly as it was, engine up or down: none of them creates or seeds
    the tables. *)
Theorem routes_that_initialize :
  ∀ env req session w,
    (initializes req session = false →
     (handle env req (session, w)).1.2 = w) ∧
    (initializes req session = true →
     db_up env = true → schema_ready w →
     db_initialized (handle env req (session, w)).1.2 = true ∧
     is_Some (tables (handle env req (session, w)).1.2)).
Proof.
  intros env req session w. split.
  - destruct req; cbn [initializes handle fst snd]; try discriminate;
      try reflexivity.
    + intros _. rewrite get_professional_unfold. reflexivity.
    + intros Hout. unfold admin_dashboard. rewrite Hout. reflexivity.
    + intros Hout. unfold admin_stats. rewrite Hout. reflexivity.
  - intros Hinit Hup Hready.
    apply (initialized_after env w _ Hup Hready).
    destruct req; cbn [initializes handle fst snd] in *; try discriminate.
    + left. reflexivity.
    + left. unfold get_professionals.
      apply route_world; [reflexivity|]. preserve.
    + destruct (decide (status (register env data w).2 = 201%Z)) as [Hst|Hst].
      * right.
        destruct (register env data w) as [w' resp] eqn:Hreg.
        cbn [fst snd] in *.
        destruct (register_created env data w w' resp Hreg Hst)
          as (t & u & _ & Ht' & Hflag & _).
        eexists. split; [exact Ht'|exact Hflag].
      * left. apply register_atomic. exact Hst.
    + destruct (decide (status (create_booking env data w).2 = 201%Z))
        as [Hst|Hst].
      * right.
        destruct (create_booking env data w) as [w' resp] eqn:Hbook.
        cbn [fst snd] in *.
        destruct (create_booking_created env data w w' resp Hbook Hst)
          as (t & b & _ & Ht' & Hflag & _).
        eexists. split; [exact Ht'|exact Hflag].
      * left. apply create_booking_atomic. exact Hst.
    + left. unfold admin_dashboard. rewrite Hinit. reflexivity.
    + left. unfold admin_stats. rewrite Hinit. cbn [negb].
      apply route_world; [reflexivity|]. preserve.
Qed.

End Initializing.

Lemma routes_that_initialize_witness :
  (handle sample_env (GetProfessional 1) (LoggedOut, fresh)).1.2 = fresh ∧
  db_initialized (handle sample_env GetHome (LoggedOut, fresh)).1.2 = true.
Proof.
  split.
  - apply (routes_that_initialize sample_env (GetProfessional 1)
             LoggedOut fresh). reflexivity.
  - apply (routes_that_initialize sample_env GetHome LoggedOut fresh).
    + reflexivity.
    + reflexivity.
    + exact schema_ready_fresh.
Defined.

(** ** The further properties on concrete requests *)

Lemma register_then_get_professional_witness :
  (get_professional sample_env 5
     (register sample_env (JObj anna_fields) seeded).1).2
    = jsonify (JsonProfessional
                 (detail (registered_row 1700000000
                            (initialized 1700000000 None)
                            "Anna" "anna@example.com" (Some "")
                            "professional" (Some "") (Some "") (Some "")))) ∧
  (get_professional sample_env 5
     (register sample_env (JObj luca_fields) seeded).1).2
    = not_found_response.
Proof.
  split.
  - apply (register_then_get_professional sample_env sample_env anna_fields
             seeded (initialized 1700000000 None)
             "Anna" "anna@example.com" (Some "") "professional"
             (Some "") (Some "") (Some ""));
      try reflexivity; try discriminate.
    apply (bool_decide_unpack _). vm_compute. reflexivity.
  - apply (register_then_get_professional sample_env sample_env luca_fields
             seeded (initialized 1700000000 None)
             "Luca" "luca@example.com" (Some "+39 02 1234") "client"
             (Some "") (Some "") (Some ""));
      try reflexivity; try discriminate.
    apply (bool_decide_unpack _). vm_compute. reflexivity.
Defined.

Lemma create_booking_counted_witness :
  status (create_booking sample_env
            (JObj (booking_fields (JInt 1) (JInt 2) (JStr "Visita")
                     (JStr "2024-05-01"))) seeded).2 = 201%Z.
Proof.
  apply (create_booking_counted sample_env sample_env
           (booking_fields (JInt 1) (JInt 2) (JStr "Visita") (JStr "2024-05-01"))
           seeded (initialized 1700000000 None)
           (JInt 1) (JInt 2) (JStr "Visita") "2024-05-01"
           1%Z 2%Z "Visita" 20240501%Z (Some "") (Some 0.0%Q));
    try reflexivity.
  intros _. split; apply (bool_decide_unpack _); vm_compute; reflexivity.
Defined.

Lemma ids_stay_unique_witness :
  ids_unique
    (serve [(sample_env, PostRegister (JObj anna_fields));
            (sample_env, PostRegister (JObj luca_fields))]
       (LoggedOut, seeded)).2.
Proof.
  destruct ids_stay_unique as [Hkeep _]. apply Hkeep.
  split; apply (bool_decide_unpack _); vm_compute; reflexivity.
Defined.

Lemma bookings_stay_pending_witness :
  all_pending
    (serve [(sample_env,
             PostBookings (JObj (booking_fields (JInt 1) (JInt 2)
                                   (JStr "Visita") (JStr "2024-05-01"))))]
       (LoggedOut, seeded)).2.
Proof.
  destruct bookings_stay_pending as [Hkeep _]. apply Hkeep. constructor.
Defined.

Lemma bookings_reference_users_witness :
  references_ok
    (serve [(sample_env,
             PostBookings (JObj (booking_fields (JInt 1) (JInt 2)
                                   (JStr "Visita") (JStr "2024-05-01"))));
            (sample_env, PostRegister (JObj anna_fields));
            (sample_env,
             PostBookings (JObj (booking_fields (JInt 5) (JInt 9)
                                   (JStr "Visita") (JStr "2024-05-02"))));
            (sample_env,
             PostBookings (JObj (booking_fields (JInt 5) (JInt 4)
                                   (JStr "Visita") (JStr "2024-05-03"))))]
       (LoggedOut, fresh)).2 ∧
  ((λ b, (Booking.client_id b, Booking.professional_id b)) <$>
     bookings_of
       (serve [(sample_env,
                PostBookings (JObj (booking_fields (JInt 1) (JInt 2)
                                      (JStr "Visita") (JStr "2024-05-01"))));
               (sample_env, PostRegister (JObj anna_fields));
               (sample_env,
                PostBookings (JObj (booking_fields (JInt 5) (JInt 9)
                                      (JStr "Visita") (JStr "2024-05-02"))));
               (sample_env,
                PostBookings (JObj (booking_fields (JInt 5) (JInt 4)
                                      (JStr "Visita") (JStr "2024-05-03"))))]
          (LoggedOut, fresh)).2)
  = [(1, 2); (5, 4)]%Z.
Proof.
  split.
  - destruct (@bookings_reference_users sample_runtime eq_refl)
      as [_ Hfresh].
    apply Hfresh.
  - vm_compute. reflexivity.
Defined.

Lemma admin_session_witness :
  (serve [(sample_env, AdminLogin POST (Some "admin") (Some "wrong"));
          (sample_env, AdminLogin GET None None);
          (sample_env, AdminDashboard)]
     (LoggedOut, seeded)).1 = LoggedOut.
Proof.
  destruct admin_session as [_ Hout]. apply Hout.
  repeat constructor; intros H; discriminate H.
Defined.

Lemma reachable_states_witness :
  (serve [(offline_env, GetProfessionals None None);
          (sample_env, GetProfessional 1)] (LoggedOut, fresh)).2 = fresh.
Proof.
  destruct (reachable_states
              [(offline_env, GetProfessionals None None);
               (sample_env, GetProfessional 1)] LoggedOut) as (_ & H & _).
  apply H. vm_compute. reflexivity.
Defined.
